(** * imageserver.py: a shallow embedding of the image server's handlers

    The Flask handlers of [imageserver.py] are embedded as functions over an
    explicit world (the metadata table, the object store and the local
    upload directory).  Calls that can raise in Python return an outcome
    that is either a value, an exception, or the exhaustion of the random
    draws handed to the shortcode loop. *)

From Stdlib Require Import ZArith Ascii String List Bool Lia Permutation Sorted.
From stdpp Require Import gmap strings list.

Local Open Scope string_scope.
Local Open Scope Z_scope.

#[local] Arguments String.append !_ _ / : simpl nomatch.

(** ** Python strings

    A [str] is modelled as a [string] of 8-bit characters.  Characters
    below 128 are ASCII; the others stand for non-ASCII code points.  What
    Python does with those by its Unicode tables ([str.lower], NFKD) is not
    computed here: it comes in through the class [Unicode] below. *)

Module PyStr.

(** [c in s] for a one-character [c]. *)
Fixpoint contains (c : ascii) (s : string) : bool :=
  match s with
  | EmptyString => false
  | String d s' => Ascii.eqb d c || contains c s'
  end.

Definition is_upper (c : ascii) : bool :=
  (65 <=? nat_of_ascii c)%nat && (nat_of_ascii c <=? 90)%nat.
Definition is_lower (c : ascii) : bool :=
  (97 <=? nat_of_ascii c)%nat && (nat_of_ascii c <=? 122)%nat.
Definition is_digit (c : ascii) : bool :=
  (48 <=? nat_of_ascii c)%nat && (nat_of_ascii c <=? 57)%nat.

Definition lower_char (c : ascii) : ascii :=
  if is_upper c then ascii_of_nat (nat_of_ascii c + 32) else c.

(** The lowering of the ASCII letters, which is [s.lower()] for an ASCII
    [s]. *)
Fixpoint lower_ascii (s : string) : string :=
  match s with
  | EmptyString => EmptyString
  | String c s' => String (lower_char c) (lower_ascii s')
  end.

(** The position of the last [sep]: [Some (before, after)]. *)
Fixpoint rpartition (sep : ascii) (s : string) : option (string * string) :=
  match s with
  | EmptyString => None
  | String c s' =>
      match rpartition sep s' with
      | Some (a, b) => Some (String c a, b)
      | None => if Ascii.eqb c sep then Some (EmptyString, s') else None
      end
  end.

(** [s.rsplit(sep, 1)] *)
Definition rsplit1 (sep : ascii) (s : string) : list string :=
  match rpartition sep s with
  | Some (a, b) => [a; b]
  | None => [s]
  end.

(** [s.split(sep)] *)
Fixpoint split (sep : ascii) (s : string) : list string :=
  match s with
  | EmptyString => [EmptyString]
  | String c s' =>
      if Ascii.eqb c sep then EmptyString :: split sep s'
      else match split sep s' with
           | h :: t => String c h :: t
           | [] => [String c EmptyString]
           end
  end.

(** [sep.join(parts)] *)
Fixpoint join (sep : string) (parts : list string) : string :=
  match parts with
  | [] => EmptyString
  | [p] => p
  | p :: rest => p ++ sep ++ join sep rest
  end.

(** [s.replace(a, b)] for one-character [a] and [b]. *)
Fixpoint replace (a b : ascii) (s : string) : string :=
  match s with
  | EmptyString => EmptyString
  | String c s' => String (if Ascii.eqb c a then b else c) (replace a b s')
  end.

Fixpoint filter (p : ascii -> bool) (s : string) : string :=
  match s with
  | EmptyString => EmptyString
  | String c s' => if p c then String c (filter p s') else filter p s'
  end.

Fixpoint forallb (p : ascii -> bool) (s : string) : bool :=
  match s with
  | EmptyString => true
  | String c s' => p c && forallb p s'
  end.

(** [s.lstrip(chars)], [s.rstrip(chars)] and [s.strip(chars)], with
    [chars] given as a predicate. *)
Fixpoint lstrip (p : ascii -> bool) (s : string) : string :=
  match s with
  | EmptyString => EmptyString
  | String c s' => if p c then lstrip p s' else s
  end.

Fixpoint rstrip (p : ascii -> bool) (s : string) : string :=
  match s with
  | EmptyString => EmptyString
  | String c s' =>
      match rstrip p s' with
      | EmptyString => if p c then EmptyString else String c EmptyString
      | r => String c r
      end
  end.

Definition strip (p : ascii -> bool) (s : string) : string :=
  rstrip p (lstrip p s).

(** Python's ASCII white space: TAB, LF, VT, FF, CR, FS, GS, RS, US and
    the space. *)
Definition is_space (c : ascii) : bool :=
  let n := nat_of_ascii c in
  ((9 <=? n)%nat && (n <=? 13)%nat) || ((28 <=? n)%nat && (n <=? 32)%nat).

(** [s.split()]: the maximal runs of characters that are not white space.
    [cur] is the run being read, if one has started. *)
Fixpoint split_ws_aux (cur : option string) (s : string) : list string :=
  match s with
  | EmptyString => match cur with Some w => [w] | None => [] end
  | String c s' =>
      if is_space c then
        match cur with
        | Some w => w :: split_ws_aux None s'
        | None => split_ws_aux None s'
        end
      else
        split_ws_aux (Some (match cur with Some w => w ++ String c EmptyString
                                      | None => String c EmptyString end)) s'
  end.

Definition split_ws (s : string) : list string := split_ws_aux None s.

(** [os.path.join(a, b)] on POSIX. *)
Definition path_join (a b : string) : string :=
  match b with
  | String "/" _ => b
  | _ =>
      match a with
      | EmptyString => b
      | _ => if String.eqb (substring (String.length a - 1) 1 a) "/"
             then a ++ b else a ++ "/" ++ b
      end
  end.

End PyStr.

(** ** Configuration, tables and the world *)

(** The module [config] is read, never written: its values are fields of
    one record. *)
Record Config := {
  file_extentions : list string;
  upload_directory : string;
  default_url_length : nat;
  url_characters : string;
  app_path : string;
  app_username : string;
  app_password : string;
  aws_s3_endpoint : string;
  aws_s3_bucket_id : string;
  aws_s3_bucket_path : string
}.

Module database.
(** A row of the table behind [database.Image], with the columns that
    [add_to_database] fills. *)
Record Image := {
  image_guid : string;
  bucket : string;
  filename : string;
  url : string;
  accessability : Z;
  passphrase : option string;
  timestamp : Z
}.
End database.

Module models.
(** [models.Image], the view of a row that the listing template gets. *)
Record Image := {
  file_url : string;
  display_url : string;
  timestamp : Z;
  shortcode : string
}.

Inductive Template :=
| TemplateDisplayImage (app_path aws_url : string)
| TemplateListImage (app_path : string) (images : list Image).
End models.

(** What a handler returns to Flask. *)
Inductive Response :=
| Text (body : string)
| Render (template : string) (model : option models.Template)
| Redirect (location : string) (code : Z)
| Unauthorized.

(** The table, the object store (keyed by bucket and key) and the files of
    the local file system (keyed by path). *)
Record World := {
  registry : list database.Image;
  s3 : gmap (string * string) string;
  disk : gmap string string
}.

Definition set_registry (w : World) (r : list database.Image) : World :=
  {| registry := r; s3 := s3 w; disk := disk w |}.
Definition set_s3 (w : World) (m : gmap (string * string) string) : World :=
  {| registry := registry w; s3 := m; disk := disk w |}.
Definition set_disk (w : World) (m : gmap string string) : World :=
  {| registry := registry w; s3 := s3 w; disk := m |}.

(** ** Outcomes and the handler monad *)

Inductive exn :=
| IndexError
| KeyError
| OSError
| S3Error
| IntegrityError
| DatabaseError.

Inductive outcome (A : Type) :=
| Returns (a : A)
| Raises (e : exn)
| OutOfDraws.
Arguments Returns {A} a.
Arguments Raises {A} e.
Arguments OutOfDraws {A}.

Definition M (A : Type) : Type := World -> World * outcome A.

Definition ret {A} (a : A) : M A := fun w => (w, Returns a).
Definition raise {A} (e : exn) : M A := fun w => (w, Raises e).
Definition bind {A B} (m : M A) (k : A -> M B) : M B :=
  fun w =>
    match m w with
    | (w', Returns a) => k a w'
    | (w', Raises e) => (w', Raises e)
    | (w', OutOfDraws) => (w', OutOfDraws)
    end.
Definition lift {A} (o : outcome A) : M A := fun w => (w, o).

(** [try: m  except: h]: a bare [except] catches every exception; the
    effects of [m] up to the raise stay. *)
Definition try_except {A} (m : M A) (h : M A) : M A :=
  fun w =>
    match m w with
    | (w', Raises _) => h w'
    | r => r
    end.

Notation "'do' x <- m ; k" := (bind m (fun x => k))
  (at level 10, x name, m at level 100, k at level 200).
Notation "'run' m ; k" := (bind m (fun _ => k))
  (at level 10, m at level 100, k at level 200).

(** ** Collaborators: the table, the object store, the file system *)

Definition has_url (u : string) (r : database.Image) : bool :=
  String.eqb (database.url r) u.

(** [database.Image.select().where(database.Image.url == u)]: the rows
    with that [url], in table order. *)
Definition select_where_url (ok : bool) (u : string) : M (list database.Image) :=
  fun w => if ok then (w, Returns (List.filter (has_url u) (registry w)))
           else (w, Raises DatabaseError).

(** [database.Image.select()] *)
Definition select_all (ok : bool) : M (list database.Image) :=
  fun w => if ok then (w, Returns (registry w)) else (w, Raises DatabaseError).

(** [query.exists()] *)
Definition exists_ (rows : list database.Image) : bool :=
  match rows with [] => false | _ :: _ => true end.

(** Modelled from the spec: [database.Image.create]; the module [database],
    which declares the table, is missing.  The registry enforces the
    uniqueness of the shortcode as a hard constraint, and a row that passes
    goes to the end of the table. *)
Definition Image_create (ok : bool) (row : database.Image) : M unit :=
  fun w =>
    if negb ok then (w, Raises DatabaseError)
    else if existsb (has_url (database.url row)) (registry w)
         then (w, Raises IntegrityError)
         else (set_registry w (registry w ++ [row]), Returns tt).

(** Rows committed by other requests: each goes through the same
    constraint, and one that violates it is not stored. *)
Definition commit_others (rows : list database.Image) : M unit :=
  fun w =>
    (fold_left (fun w' row => fst (Image_create true row w')) rows w, Returns tt).

Fixpoint remove_first (p : database.Image -> bool) (l : list database.Image)
  : list database.Image :=
  match l with
  | [] => []
  | r :: l' => if p r then l' else r :: remove_first p l'
  end.

(** [image.delete_instance()] for the first row with the [url] of [image],
    which is the row [query[0]] that the handler holds. *)
Definition delete_instance (ok : bool) (image : database.Image) : M unit :=
  fun w =>
    if ok then (set_registry w (remove_first (has_url (database.url image)) (registry w)),
                Returns tt)
    else (w, Raises DatabaseError).

(** [file.save(path)] *)
Definition file_save (ok : bool) (content path : string) : M unit :=
  fun w => if ok then (set_disk w (<[path := content]> (disk w)), Returns tt)
           else (w, Raises OSError).

(** [os.remove(path)] *)
Definition os_remove (ok : bool) (path : string) : M unit :=
  fun w =>
    match disk w !! path with
    | Some _ => if ok then (set_disk w (delete path (disk w)), Returns tt)
                else (w, Raises OSError)
    | None => (w, Raises OSError)
    end.

(** [s3_connection.upload(key, file, bucket)] *)
Definition s3_upload (ok : bool) (key content bucket : string) : M unit :=
  fun w => if ok then (set_s3 w (<[(bucket, key) := content]> (s3 w)), Returns tt)
           else (w, Raises S3Error).

(** [s3_connection.delete(key, bucket=bucket)] *)
Definition s3_delete (ok : bool) (key bucket : string) : M unit :=
  fun w => if ok then (set_s3 w (delete (bucket, key) (s3 w)), Returns tt)
           else (w, Raises S3Error).

Definition is_ascii (c : ascii) : bool := (nat_of_ascii c <? 128)%nat.

(** Python's Unicode tables, as far as the handlers use them:
    [str_lower s] is [s.lower()] and [nfkd s] is
    [unicodedata.normalize('NFKD', s)].  Both are driven by the Unicode
    character database, so they are taken as they are, with these facts:
    lowering neither makes nor removes a full stop, leaves no capital ASCII
    letter, goes through a full stop at the end (a full stop has no case
    and does not change whether a capital sigma before it is final), and
    does nothing to a lowered string; normalisation leaves ASCII text as it
    is. *)
Class Unicode := {
  str_lower : string -> string;
  nfkd : string -> string;
  str_lower_dot :
    forall s, PyStr.contains "." (str_lower s) = PyStr.contains "." s;
  str_lower_no_capital :
    forall s, PyStr.forallb (fun c => negb (PyStr.is_upper c)) (str_lower s) = true;
  str_lower_trailing_dot :
    forall s, str_lower (s ++ ".") = str_lower s ++ ".";
  str_lower_idem :
    forall s, str_lower (str_lower s) = str_lower s;
  nfkd_ascii :
    forall s, PyStr.forallb is_ascii s = true -> nfkd s = s
}.

(** The tables cut down to ASCII: they are Python's on every ASCII string,
    which is what the sample requests use. *)
#[global] Instance ascii_tables : Unicode.
Proof.
  refine {| str_lower := PyStr.lower_ascii; nfkd := fun s => s |}.
  - induction s as [|c s IH]; simpl; [reflexivity|]. rewrite IH.
    destruct c as [[] [] [] [] [] [] [] []]; reflexivity.
  - induction s as [|c s IH]; simpl; [reflexivity|]. rewrite IH.
    destruct c as [[] [] [] [] [] [] [] []]; reflexivity.
  - induction s as [|c s IH]; simpl; [reflexivity|]. now rewrite IH.
  - induction s as [|c s IH]; simpl; [reflexivity|]. rewrite IH.
    destruct c as [[] [] [] [] [] [] [] []]; reflexivity.
  - reflexivity.
Defined.

Definition filename_safe (c : ascii) : bool :=
  PyStr.is_upper c || PyStr.is_lower c || PyStr.is_digit c
  || Ascii.eqb c "_" || Ascii.eqb c "." || Ascii.eqb c "-".

Definition dot_or_underscore (c : ascii) : bool :=
  Ascii.eqb c "." || Ascii.eqb c "_".

(** [werkzeug.utils.secure_filename], the library function, on POSIX: the
    name is normalised to NFKD and reduced to ASCII (what is left above 127
    is dropped), path separators become spaces, the words are joined by
    underscores, every character outside [A-Za-z0-9_.-] is dropped, and
    dots and underscores are stripped from both ends. *)
Definition secure_filename {unicode : Unicode} (filename : string) : string :=
  let filename := nfkd filename in
  let filename := PyStr.filter is_ascii filename in
  let filename := PyStr.replace "/" " " filename in
  PyStr.strip dot_or_underscore
    (PyStr.filter filename_safe (PyStr.join "_" (PyStr.split_ws filename))).

(** ** Requests and what the outside contributes to one request *)

Inductive Method := GET | POST.

(** [werkzeug.FileStorage]: it is falsy when its filename is empty. *)
Record FileStorage := {
  fs_filename : string;
  fs_content : string
}.

Record UploadRequest := {
  method : Method;
  files_file : option FileStorage
}.

(** One upload sees: the random numbers of each call of
    [generate_random_string], the result of [uuid.uuid4()] and of
    [time.time()], which calls to the collaborators fail, and the rows that
    other requests commit between the existence check and the commit. *)
Record UploadEnv := {
  draws : list (list nat);
  uuid4 : string;
  time_now : Z;
  select_ok : bool;
  save_ok : bool;
  put_ok : bool;
  create_ok : bool;
  remove_ok : bool;
  concurrent : list database.Image
}.

Record DeleteRequest := {
  authorization : option (string * string);
  arg_filename : option string;
  arg_redirect : option string
}.

Record DeleteEnv := {
  del_select_ok : bool;
  del_s3_ok : bool;
  del_db_ok : bool
}.

(** ** The handlers *)

Section Handlers.

Context {unicode : Unicode}.
Variable config : Config.

Definition strip_extenstion (filename : string) : option string :=
  if PyStr.contains "." filename
  then PyStr.rsplit1 "." (str_lower filename) !! 1%nat
  else None.

(** [x in l] for an [x] that may be [None] and a list of strings. *)
Definition py_in (x : option string) (l : list string) : bool :=
  match x with
  | Some e => existsb (String.eqb e) l
  | None => false
  end.

Definition is_acceptable_filename (filename : string) : bool :=
  py_in (strip_extenstion filename) (file_extentions config).

(** [random.choice(seq)] with [r] the number drawn. *)
Definition random_choice (r : nat) (seq : string) : outcome ascii :=
  match String.get (r mod String.length seq) seq with
  | Some c => Returns c
  | None => Raises IndexError
  end.

(** [''.join([random.choice(ALPHA_CHARS) for x in range(length)])] *)
Fixpoint generate_random_string (length : nat) (rs : list nat) : outcome string :=
  match length with
  | O => Returns EmptyString
  | S n =>
      match random_choice (hd 0%nat rs) (url_characters config) with
      | Returns c =>
          match generate_random_string n (tl rs) with
          | Returns s => Returns (String c s)
          | o => o
          end
      | Raises e => Raises e
      | OutOfDraws => OutOfDraws
      end
  end.

Definition check_auth (username password : string) : bool :=
  String.eqb username (app_username config)
  && String.eqb password (app_password config).

Definition authenticate : Response := Unauthorized.

Definition make_s3_upload (ok : bool)
    (bucket_name destination_directory key_name path_to_file : string) : M unit :=
  fun w =>
    match disk w !! path_to_file with
    | None => (w, Raises OSError)
    | Some file =>
        let s3_path := PyStr.path_join destination_directory key_name in
        s3_upload ok s3_path file bucket_name w
    end.

Definition add_to_database (ok : bool) (guid filename file_url : string)
    (timestamp : Z) : M unit :=
  Image_create ok
    {| database.image_guid := guid;
       database.bucket := aws_s3_bucket_id config;
       database.filename := filename;
       database.url := file_url;
       database.accessability := 1;
       database.passphrase := None;
       database.timestamp := timestamp |}.

(** [sorted(l, key=...)] is a stable sort: insertion from the right,
    each element going in front of the keys that are not smaller. *)
Fixpoint insert_by (key : models.Image -> Z) (x : models.Image)
    (l : list models.Image) : list models.Image :=
  match l with
  | [] => [x]
  | y :: l' => if key x <=? key y then x :: y :: l' else y :: insert_by key x l'
  end.

Fixpoint sorted (key : models.Image -> Z) (l : list models.Image)
  : list models.Image :=
  match l with
  | [] => []
  | x :: l' => insert_by key x (sorted key l')
  end.

Definition to_model (image : database.Image) : models.Image :=
  {| models.file_url :=
       "http://" ++ aws_s3_endpoint config ++ "/" ++ database.bucket image
       ++ "/" ++ database.filename image;
     models.display_url := app_path config ++ "\" ++ database.url image;
     models.timestamp := database.timestamp image;
     models.shortcode := database.url image |}.

Definition get_images (ok : bool) : M (list models.Image) :=
  do rows <- select_all ok;
  let image_list := map to_model rows in
  ret (sorted (fun image => - models.timestamp image) image_list).

Definition get_image (ok : bool) (filename : option string) : M Response :=
  match filename with
  | None => ret (Text "Invalid URL specified.")
  | Some filename =>
      let filename :=
        if PyStr.contains "." filename
        then hd EmptyString (PyStr.split "." filename)
        else filename in
      do image_object <- select_where_url ok filename;
      match image_object with
      | [] => ret (Text "404")
      | first :: _ =>
          let aws_url :=
            "http://" ++ aws_s3_endpoint config ++ "/" ++ database.bucket first
            ++ "/" ++ database.filename first in
          ret (Render "display_image.html"
                 (Some (models.TemplateDisplayImage (app_path config) aws_url)))
      end
  end.

Definition invalid_file_message : string :=
  "Error: An invalid file was provided. Files must be one of the following: "
  ++ PyStr.join ", " (map (fun x => "." ++ x) (file_extentions config)).

Definition generic_error_message : string :=
  "An error occured while accessing the database. Please try again later.".

(** [str(x)] for the result of [strip_extenstion]. *)
Definition format_opt (x : option string) : string :=
  match x with Some e => e | None => "None" end.

(** The shortcode loop: one element of [ds] per call of
    [generate_random_string]; the loop goes on while the code is taken. *)
Fixpoint new_shortcode (ok : bool) (ds : list (list nat)) : M string :=
  match ds with
  | [] => lift OutOfDraws
  | d :: ds' =>
      do new_url <- lift (generate_random_string (default_url_length config) d);
      do rows <- select_where_url ok new_url;
      if exists_ rows then new_shortcode ok ds' else ret new_url
  end.

(** The body of the [try] of [upload_img].  The rows of the other requests
    come in once the loop has found its code. *)
Definition upload_try (env : UploadEnv) (file : FileStorage)
    (file_id new_filename : string) : M Response :=
  do new_url <- new_shortcode (select_ok env) (draws env);
  run commit_others (concurrent env);
  let local_temp_path := PyStr.path_join (upload_directory config) new_filename in
  run file_save (save_ok env) (fs_content file) local_temp_path;
  run make_s3_upload (put_ok env) (aws_s3_bucket_id config)
        (aws_s3_bucket_path config) new_filename local_temp_path;
  run add_to_database (create_ok env) file_id
        (PyStr.path_join (aws_s3_bucket_path config) new_filename) new_url
        (time_now env);
  run os_remove (remove_ok env) local_temp_path;
  ret (Text (app_path config ++ "/" ++ (new_url ++ ".png"))).

Definition upload_img (req : UploadRequest) (env : UploadEnv) : M Response :=
  match method req with
  | GET => ret (Render "upload_form.html" None)
  | POST =>
      match files_file req with
      | None => raise KeyError
      | Some file =>
          if String.eqb (fs_filename file) EmptyString
          then ret (Text "Error: no file was provided")
          else if negb (is_acceptable_filename (fs_filename file))
          then ret (Text invalid_file_message)
          else
            let file_id := uuid4 env in
            let new_filename :=
              file_id ++ "." ++ format_opt (strip_extenstion (fs_filename file)) in
            try_except (upload_try env file file_id new_filename)
                       (ret (Text generic_error_message))
      end
  end.

(** The handler under [@requires_auth]. *)
Definition delete_img_inner (req : DeleteRequest) (env : DeleteEnv) : M Response :=
  match arg_filename req with
  | None | Some EmptyString => ret (Text "Invalid URL Parameters")
  | Some name =>
      let sanitized_filename := secure_filename name in
      do query <- select_where_url (del_select_ok env) sanitized_filename;
      match query with
      | [] => ret (Text "The image does not exist")
      | image :: _ =>
          run s3_delete (del_s3_ok env) (database.filename image)
                (aws_s3_bucket_id config);
          run delete_instance (del_db_ok env) image;
          match arg_redirect req with
          | None | Some EmptyString => ret (Text "The file has been deleted")
          | Some redirect_url => ret (Redirect ("/" ++ redirect_url ++ "/") 302)
          end
      end
  end.

Definition requires_auth {Rq Env : Type} (auth : Rq -> option (string * string))
    (f : Rq -> Env -> M Response) (req : Rq) (env : Env) : M Response :=
  match auth req with
  | None => ret authenticate
  | Some (username, password) =>
      if negb (check_auth username password) then ret authenticate
      else f req env
  end.

Definition delete_img : DeleteRequest -> DeleteEnv -> M Response :=
  requires_auth authorization delete_img_inner.

Definition list_files (ok : bool) : M Response :=
  do images <- get_images ok;
  ret (Render "list_images.html"
         (Some (models.TemplateListImage (app_path config) images))).

End Handlers.

(** ** Vocabulary for the upload handler *)

Section UploadVocabulary.

Context {unicode : Unicode}.
Variable config : Config.

(** The registry once the rows of the other requests are in. *)
Definition with_others (env : UploadEnv) (w : World) : World :=
  fst (commit_others (concurrent env) w).

(** The row that [add_to_database] writes for an upload. *)
Definition upload_row (env : UploadEnv) (new_filename new_url : string)
  : database.Image :=
  {| database.image_guid := uuid4 env;
     database.bucket := aws_s3_bucket_id config;
     database.filename :=
       PyStr.path_join (aws_s3_bucket_path config) new_filename;
     database.url := new_url;
     database.accessability := 1;
     database.passphrase := None;
     database.timestamp := time_now env |}.

Definition staged_path (new_filename : string) : string :=
  PyStr.path_join (upload_directory config) new_filename.

Definition new_filename_of (env : UploadEnv) (file : FileStorage) : string :=
  uuid4 env ++ "." ++ format_opt (strip_extenstion (fs_filename file)).

(** A POST with a named file whose extension is allowed. *)
Definition accepted (req : UploadRequest) (file : FileStorage) : Prop :=
  method req = POST /\ files_file req = Some file
  /\ fs_filename file <> EmptyString
  /\ is_acceptable_filename config (fs_filename file) = true.

(** The world and outcome of the [try] block, stage by stage. *)
Definition upload_stages (env : UploadEnv) (file : FileStorage)
    (new_filename new_url : string) (w : World) : World * outcome Response :=
  let w2 := with_others env w in
  let path := staged_path new_filename in
  let row := upload_row env new_filename new_url in
  if negb (save_ok env) then (w2, Raises OSError) else
  let w3 := set_disk w2 (<[path := fs_content file]> (disk w2)) in
  if negb (put_ok env) then (w3, Raises S3Error) else
  let w4 := set_s3 w3 (<[(aws_s3_bucket_id config, database.filename row)
                          := fs_content file]> (s3 w3)) in
  if negb (create_ok env) then (w4, Raises DatabaseError) else
  if existsb (has_url new_url) (registry w2) then (w4, Raises IntegrityError) else
  let w5 := set_registry w4 (registry w2 ++ [row]) in
  if negb (remove_ok env) then (w5, Raises OSError) else
  (set_disk w5 (delete path (disk w5)),
   Returns (Text (app_path config ++ "/" ++ (new_url ++ ".png")))).

End UploadVocabulary.

(** ** Vocabulary for the deletion handler *)

Definition set_arg_filename (req : DeleteRequest) (name : string) : DeleteRequest :=
  {| authorization := authorization req;
     arg_filename := Some name;
     arg_redirect := arg_redirect req |}.

(** The answer of [delete_img] after a deletion. *)
Definition deleted_response (req : DeleteRequest) : Response :=
  match arg_redirect req with
  | None | Some EmptyString => Text "The file has been deleted"
  | Some redirect_url => Redirect ("/" ++ redirect_url ++ "/") 302
  end.

(** ** Sample configuration and requests *)

Module Examples.

Definition cfg : Config :=
  {| file_extentions := ["png"; "jpg"; "gif"];
     upload_directory := "uploads";
     default_url_length := 3;
     url_characters := "abc";
     app_path := "http://img.example";
     app_username := "admin";
     app_password := "hunter2";
     aws_s3_endpoint := "s3.example";
     aws_s3_bucket_id := "pictures";
     aws_s3_bucket_path := "img" |}.

Definition empty_world : World :=
  {| registry := []; s3 := ∅; disk := ∅ |}.

Definition cat : FileStorage :=
  {| fs_filename := "Cat.JPG"; fs_content := "JFIF" |}.

Definition post_cat : UploadRequest :=
  {| method := POST; files_file := Some cat |}.

Definition post_readme : UploadRequest :=
  {| method := POST;
     files_file := Some {| fs_filename := "README"; fs_content := "text" |} |}.

Definition post_exe : UploadRequest :=
  {| method := POST;
     files_file := Some {| fs_filename := "malware.exe"; fs_content := "MZ" |} |}.

(** Every collaborator answers; the first draw spells [abc]. *)
Definition calm (guid : string) (now : Z) : UploadEnv :=
  {| draws := [[0; 1; 2]; [1; 1; 1]; [2; 0; 2]]%nat;
     uuid4 := guid;
     time_now := now;
     select_ok := true;
     save_ok := true;
     put_ok := true;
     create_ok := true;
     remove_ok := true;
     concurrent := [] |}.

(** The object store refuses the upload. *)
Definition s3_down : UploadEnv :=
  {| draws := [[0; 1; 2]]%nat;
     uuid4 := "6f1c";
     time_now := 1500000000;
     select_ok := true;
     save_ok := true;
     put_ok := false;
     create_ok := true;
     remove_ok := true;
     concurrent := [] |}.

Definition rival : database.Image :=
  {| database.image_guid := "0b7e";
     database.bucket := "pictures";
     database.filename := "img/0b7e.png";
     database.url := "abc";
     database.accessability := 1;
     database.passphrase := None;
     database.timestamp := 1500000000 |}.

(** Another request commits the code [abc] after this one has found it
    free. *)
Definition racing : UploadEnv :=
  {| draws := [[0; 1; 2]; [1; 1; 1]]%nat;
     uuid4 := "6f1c";
     time_now := 1500000000;
     select_ok := true;
     save_ok := true;
     put_ok := true;
     create_ok := true;
     remove_ok := true;
     concurrent := [rival] |}.

(** The same configuration with another alphabet for the shortcodes. *)
Definition with_alphabet (alphabet : string) : Config :=
  {| file_extentions := file_extentions cfg;
     upload_directory := upload_directory cfg;
     default_url_length := default_url_length cfg;
     url_characters := alphabet;
     app_path := app_path cfg;
     app_username := app_username cfg;
     app_password := app_password cfg;
     aws_s3_endpoint := aws_s3_endpoint cfg;
     aws_s3_bucket_id := aws_s3_bucket_id cfg;
     aws_s3_bucket_path := aws_s3_bucket_path cfg |}.

Definition all_ok : DeleteEnv :=
  {| del_select_ok := true; del_s3_ok := true; del_db_ok := true |}.

Definition delete_req (name : string) : DeleteRequest :=
  {| authorization := Some ("admin", "hunter2");
     arg_filename := Some name;
     arg_redirect := None |}.

(** The row that the upload of the cat writes under the code [abc]. *)
Definition cat_row (guid : string) (now : Z) : database.Image :=
  upload_row cfg (calm guid now) (guid ++ ".jpg") "abc".

(** A later row, under the code [cab]. *)
Definition later_row : database.Image :=
  {| database.image_guid := "83aa";
     database.bucket := "pictures";
     database.filename := "img/83aa.png";
     database.url := "cab";
     database.accessability := 1;
     database.passphrase := None;
     database.timestamp := 1500000060 |}.

(** The world after one upload of the cat. *)
Definition after_upload (c : Config) (guid : string) (now : Z) (w : World) : World :=
  fst (upload_img c post_cat (calm guid now) w).

End Examples.

(** ** More sample data *)

Module Samples.

(** A list of extensions written with capitals or with their dot. *)
Definition shouting_cfg : Config :=
  {| file_extentions := ["PNG"; ".jpg"];
     upload_directory := "uploads";
     default_url_length := 3;
     url_characters := "abc";
     app_path := "http://img.example";
     app_username := "admin";
     app_password := "hunter2";
     aws_s3_endpoint := "s3.example";
     aws_s3_bucket_id := "pictures";
     aws_s3_bucket_path := "img" |}.

(** The cleanup fails after everything else went well. *)
Definition sticky : UploadEnv :=
  {| draws := [[0; 1; 2]]%nat;
     uuid4 := "6f1c";
     time_now := 1500000000;
     select_ok := true;
     save_ok := true;
     put_ok := true;
     create_ok := true;
     remove_ok := false;
     concurrent := [] |}.



(** A file field sent without a file: the name is empty. *)
Definition unnamed : FileStorage :=
  {| fs_filename := ""; fs_content := "" |}.

Definition post_unnamed : UploadRequest :=
  {| method := POST; files_file := Some unnamed |}.

Definition intruder_req (name : string) : DeleteRequest :=
  {| authorization := Some ("admin", "letmein");
     arg_filename := Some name;
     arg_redirect := None |}.

End Samples.

(** * Properties *)

(** ** Strings *)

Module PyStrFacts.
Import PyStr.

Lemma contains_app (c : ascii) (a b : string) :
  contains c (a ++ b) = contains c a || contains c b.
Proof.
  induction a as [|d a IH]; simpl; [reflexivity|].
  now rewrite IH, orb_assoc.
Qed.

Lemma rpartition_None (sep : ascii) (s : string) :
  rpartition sep s = None <-> contains sep s = false.
Proof.
  induction s as [|c s IH]; simpl; [tauto|].
  destruct (rpartition sep s) as [[a b]|].
  - split; [discriminate|].
    intros H. apply orb_false_elim in H as [_ H].
    apply IH in H. discriminate.
  - assert (Hs : contains sep s = false) by (now apply IH).
    rewrite Hs, orb_false_r.
    destruct (Ascii.eqb c sep); split; congruence.
Qed.

(** [rpartition] cuts at the last separator. *)
Lemma rpartition_Some (sep : ascii) (s a b : string) :
  rpartition sep s = Some (a, b) <->
  s = a ++ String sep b /\ contains sep b = false.
Proof.
  revert a b. induction s as [|c s IH]; intros a b; simpl.
  - split; [discriminate|]. intros [H _]. destruct a; discriminate.
  - destruct (rpartition sep s) as [[a' b']|] eqn:E.
    + destruct (proj1 (IH a' b') eq_refl) as [Hs Hb']. split.
      * intros H. injection H as <- <-. split; [simpl; congruence | exact Hb'].
      * intros [H Hb]. destruct a as [|d a]; simpl in H.
        -- injection H as Hc Hsb.
           rewrite <- Hsb, Hs, contains_app in Hb. simpl in Hb.
           rewrite Ascii.eqb_refl, orb_true_r in Hb. discriminate.
        -- injection H as Hc Hsa.
           assert (E' : Some (a', b') = Some (a, b)) by (apply IH; auto).
           congruence.
    + apply rpartition_None in E. split.
      * destruct (Ascii.eqb c sep) eqn:Ec; [|discriminate].
        intros H. injection H as <- <-.
        apply Ascii.eqb_eq in Ec. subst c. auto.
      * intros [H Hb]. destruct a as [|d a]; simpl in H.
        -- injection H as Hc Hsb. subst. now rewrite Ascii.eqb_refl.
        -- injection H as Hc Hsa.
           rewrite Hsa, contains_app in E. simpl in E.
           rewrite Ascii.eqb_refl, orb_true_r in E. discriminate.
Qed.

Lemma split_nonempty (sep : ascii) (s : string) : split sep s <> [].
Proof.
  destruct s as [|c s]; simpl; [discriminate|].
  destruct (Ascii.eqb c sep); [discriminate|].
  destruct (split sep s); discriminate.
Qed.

(** The first field of [split] is what stands before the first separator. *)
Lemma split_head_app (sep : ascii) (a b : string) :
  contains sep a = false ->
  hd EmptyString (split sep (a ++ String sep b)) = a.
Proof.
  induction a as [|c a IH]; simpl; intros H.
  - now rewrite Ascii.eqb_refl.
  - apply orb_false_elim in H as [Hc Ha].
    rewrite Hc. specialize (IH Ha).
    destruct (split sep (a ++ String sep b)) as [|h t] eqn:E.
    + now apply split_nonempty in E.
    + simpl in *. congruence.
Qed.

Lemma split_head_no_sep (sep : ascii) (s : string) :
  contains sep s = false -> hd EmptyString (split sep s) = s.
Proof.
  induction s as [|c s IH]; simpl; intros H; [reflexivity|].
  apply orb_false_elim in H as [Hc Hs]. rewrite Hc. specialize (IH Hs).
  destruct (split sep s) as [|h t] eqn:E.
  - now apply split_nonempty in E.
  - simpl in *. congruence.
Qed.

(** The first field does not change when a separator and more text are
    added at the end. *)
Lemma split_head_extend (sep : ascii) (s ext : string) :
  hd EmptyString (split sep (s ++ String sep ext))
  = hd EmptyString (split sep s).
Proof.
  induction s as [|c s IH]; simpl.
  - now rewrite Ascii.eqb_refl.
  - destruct (Ascii.eqb c sep); [reflexivity|].
    destruct (split sep (s ++ String sep ext)) as [|h t] eqn:E;
      [now apply split_nonempty in E|].
    destruct (split sep s) as [|h' t'] eqn:E';
      [now apply split_nonempty in E'|].
    simpl in *. congruence.
Qed.

Lemma contains_split_head (sep : ascii) (s : string) :
  contains sep (hd EmptyString (split sep s)) = false.
Proof.
  induction s as [|c s IH]; simpl; [reflexivity|].
  destruct (Ascii.eqb c sep) eqn:Ec; [reflexivity|].
  destruct (split sep s) as [|h t] eqn:E; simpl in *.
  - now rewrite Ec.
  - now rewrite Ec, IH.
Qed.

Lemma append_snoc (w : string) (c : ascii) (s : string) :
  (w ++ String c EmptyString) ++ s = w ++ String c s.
Proof.
  induction w as [|d w IH]; simpl; [reflexivity|]. now rewrite IH.
Qed.

Lemma forallb_impl (p q : ascii -> bool) (s : string) :
  (forall c, p c = true -> q c = true) ->
  forallb p s = true -> forallb q s = true.
Proof.
  intros Hpq. induction s as [|c s IH]; simpl; [reflexivity|].
  intros H. apply andb_prop in H as [Hc Hs].
  now rewrite (Hpq c Hc), (IH Hs).
Qed.

Lemma filter_forallb (p : ascii -> bool) (s : string) :
  forallb p (filter p s) = true.
Proof.
  induction s as [|c s IH]; simpl; [reflexivity|].
  destruct (p c) eqn:E; simpl; [now rewrite E|assumption].
Qed.

Lemma filter_id (p : ascii -> bool) (s : string) :
  forallb p s = true -> filter p s = s.
Proof.
  induction s as [|c s IH]; simpl; [reflexivity|].
  intros H. apply andb_prop in H as [Hc Hs]. now rewrite Hc, (IH Hs).
Qed.

Lemma replace_id (a b : ascii) (s : string) :
  contains a s = false -> replace a b s = s.
Proof.
  induction s as [|c s IH]; simpl; [reflexivity|].
  intros H. apply orb_false_elim in H as [Hc Hs]. now rewrite Hc, (IH Hs).
Qed.

Lemma split_ws_aux_word (w s : string) :
  forallb (fun c => negb (is_space c)) s = true ->
  split_ws_aux (Some w) s = [w ++ s].
Proof.
  revert w. induction s as [|c s IH]; intros w; simpl.
  - intros _. f_equal. induction w as [|d w IHw]; simpl; congruence.
  - intros H. apply andb_prop in H as [Hc Hs].
    apply negb_true_iff in Hc. rewrite Hc, (IH _ Hs). now rewrite append_snoc.
Qed.

(** A name without white space is one word, or no word when it is empty. *)
Lemma join_split_ws_id (s : string) :
  forallb (fun c => negb (is_space c)) s = true ->
  join "_" (split_ws s) = s.
Proof.
  destruct s as [|c s]; [reflexivity|].
  unfold split_ws. simpl. intros H. apply andb_prop in H as [Hc Hs].
  apply negb_true_iff in Hc. rewrite Hc, (split_ws_aux_word _ _ Hs). reflexivity.
Qed.

Lemma lstrip_forallb (p q : ascii -> bool) (s : string) :
  forallb q s = true -> forallb q (lstrip p s) = true.
Proof.
  induction s as [|c s IH]; simpl; [reflexivity|].
  intros H. destruct (p c); [|exact H].
  apply andb_prop in H as [_ Hs]. auto.
Qed.

Lemma rstrip_forallb (p q : ascii -> bool) (s : string) :
  forallb q s = true -> forallb q (rstrip p s) = true.
Proof.
  induction s as [|c s IH]; simpl; [reflexivity|].
  intros H. apply andb_prop in H as [Hc Hs]. specialize (IH Hs).
  destruct (rstrip p s) as [|d r].
  - destruct (p c); simpl; [reflexivity|now rewrite Hc].
  - simpl in *. now rewrite Hc.
Qed.

Lemma lstrip_idem (p : ascii -> bool) (s : string) :
  lstrip p (lstrip p s) = lstrip p s.
Proof.
  induction s as [|c s IH]; simpl; [reflexivity|].
  destruct (p c) eqn:E; [assumption|]. simpl. now rewrite E.
Qed.

Lemma rstrip_idem (p : ascii -> bool) (s : string) :
  rstrip p (rstrip p s) = rstrip p s.
Proof.
  induction s as [|c s IH]; simpl; [reflexivity|].
  destruct (rstrip p s) as [|d r] eqn:E.
  - destruct (p c) eqn:Ec; simpl; [reflexivity|now rewrite Ec].
  - simpl. simpl in IH. rewrite IH. reflexivity.
Qed.

(** Stripping on the right leaves a stripped left end as it is. *)
Lemma lstrip_rstrip (p : ascii -> bool) (s : string) :
  lstrip p s = s -> lstrip p (rstrip p s) = rstrip p s.
Proof.
  destruct s as [|c s]; simpl; [reflexivity|].
  destruct (p c) eqn:Ec.
  - intros H. exfalso.
    assert (L : forall t, (String.length (lstrip p t) <= String.length t)%nat).
    { induction t as [|d t IHt]; simpl; [lia|]. destruct (p d); simpl; lia. }
    specialize (L s). rewrite H in L. simpl in L. lia.
  - intros _. destruct (rstrip p s) as [|d r]; simpl; now rewrite Ec.
Qed.

Lemma strip_fixed (p : ascii -> bool) (s : string) :
  lstrip p (strip p s) = strip p s /\ rstrip p (strip p s) = strip p s.
Proof.
  unfold strip. split.
  - apply lstrip_rstrip, lstrip_idem.
  - apply rstrip_idem.
Qed.

End PyStrFacts.

(** ** File names and extensions *)

Section Extension.

Context {unicode : Unicode}.
Variable config : Config.

Lemma strip_extenstion_None (filename : string) :
  strip_extenstion filename = None <-> PyStr.contains "." filename = false.
Proof.
  unfold strip_extenstion, PyStr.rsplit1.
  destruct (PyStr.contains "." filename) eqn:E; [|tauto].
  split; [|discriminate].
  destruct (PyStr.rpartition "." (str_lower filename)) as [[a b]|] eqn:R.
  - discriminate.
  - apply PyStrFacts.rpartition_None in R.
    rewrite str_lower_dot in R. congruence.
Qed.

(** The extension is what follows the last dot of the lowered name. *)
Lemma strip_extenstion_Some (filename ext : string) :
  strip_extenstion filename = Some ext <->
  exists stem, str_lower filename = stem ++ String "." ext
               /\ PyStr.contains "." ext = false.
Proof.
  unfold strip_extenstion, PyStr.rsplit1.
  destruct (PyStr.contains "." filename) eqn:E.
  - destruct (PyStr.rpartition "." (str_lower filename)) as [[a b]|] eqn:R.
    + apply PyStrFacts.rpartition_Some in R as [Hl Hb]. simpl. split.
      * intros H. injection H as <-. eauto.
      * intros [stem [Hs He]].
        assert (R' : PyStr.rpartition "." (str_lower filename) = Some (stem, ext))
          by (apply PyStrFacts.rpartition_Some; auto).
        assert (R'' : PyStr.rpartition "." (str_lower filename) = Some (a, b))
          by (apply PyStrFacts.rpartition_Some; auto).
        congruence.
    + apply PyStrFacts.rpartition_None in R.
      rewrite str_lower_dot in R. congruence.
  - split; [discriminate|]. intros [stem [Hs _]].
    rewrite <- (str_lower_dot filename), Hs, PyStrFacts.contains_app in E.
    simpl in E. rewrite orb_true_r in E. discriminate.
Qed.

Lemma py_in_true (x : option string) (l : list string) :
  py_in x l = true <-> exists e, x = Some e /\ In e l.
Proof.
  destruct x as [e|]; simpl.
  - rewrite existsb_exists. split.
    + intros [y [Hy He]]. apply String.eqb_eq in He. subst. eauto.
    + intros [y [Hy He]]. injection Hy as ->. exists y. split; [assumption|].
      apply String.eqb_refl.
  - split; [discriminate|]. intros [e [H _]]. discriminate.
Qed.

(** A name is refused when it has no dot or when its extension is not
    among the configured ones. *)
Lemma is_acceptable_filename_false (filename : string) :
  PyStr.contains "." filename = false \/
  (forall stem ext, str_lower filename = stem ++ String "." ext ->
                    PyStr.contains "." ext = false ->
                    ~ In ext (file_extentions config)) ->
  is_acceptable_filename config filename = false.
Proof.
  intros H. unfold is_acceptable_filename.
  destruct (py_in _ _) eqn:E; [|reflexivity].
  apply py_in_true in E as [e [He Hin]].
  destruct H as [H|H].
  - apply strip_extenstion_None in H. congruence.
  - apply strip_extenstion_Some in He as [stem [Hs Hd]].
    exfalso. exact (H stem e Hs Hd Hin).
Qed.

End Extension.

(** ** The table *)

Lemma filter_nil_find (p : database.Image -> bool) (l : list database.Image) :
  List.filter p l = [] <-> find p l = None.
Proof.
  induction l as [|r l IH]; simpl; [tauto|].
  destruct (p r); [split; discriminate | exact IH].
Qed.

Lemma filter_cons_find (p : database.Image -> bool) (l : list database.Image)
    (r : database.Image) :
  (exists rest, List.filter p l = r :: rest) <-> find p l = Some r.
Proof.
  induction l as [|x l IH]; simpl.
  - split; [intros [rest H]|]; discriminate.
  - destruct (p x); [|exact IH]. split.
    + intros [rest H]. congruence.
    + intros H. injection H as ->. eauto.
Qed.

Lemma find_absent (u : string) (l : list database.Image) :
  ~ In u (map database.url l) -> find (has_url u) l = None.
Proof.
  induction l as [|r l IH]; simpl; [reflexivity|].
  intros H. unfold has_url at 1.
  destruct (String.eqb (database.url r) u) eqn:E.
  - apply String.eqb_eq in E. tauto.
  - apply IH. tauto.
Qed.

Lemma remove_first_keeps (q p : database.Image -> bool) (l : list database.Image) :
  (forall r, q r = true -> p r = false) ->
  List.filter q (remove_first p l) = List.filter q l.
Proof.
  intros H. induction l as [|r l IH]; simpl; [reflexivity|].
  destruct (p r) eqn:Ep.
  - destruct (q r) eqn:Eq; [|reflexivity].
    rewrite (H r Eq) in Ep. discriminate.
  - simpl. now rewrite IH.
Qed.

(** Where shortcodes are unique, removing the first row of a shortcode
    removes the shortcode. *)
Lemma remove_first_unique (u : string) (l : list database.Image) :
  List.NoDup (map database.url l) ->
  find (has_url u) (remove_first (has_url u) l) = None.
Proof.
  induction l as [|r l IH]; simpl; [reflexivity|].
  intros H. inversion H as [|x xs Hnotin Hnd]; subst.
  unfold has_url at 2. destruct (String.eqb (database.url r) u) eqn:E.
  - apply String.eqb_eq in E. subst u. now apply find_absent.
  - simpl. unfold has_url at 1. rewrite E. auto.
Qed.

Lemma remove_first_urls (p : database.Image -> bool) (l : list database.Image) :
  List.NoDup (map database.url l) -> List.NoDup (map database.url (remove_first p l)).
Proof.
  induction l as [|r l IH]; simpl; [auto|].
  intros H. inversion H as [|x xs Hnotin Hnd]; subst.
  destruct (p r); [assumption|]. simpl. constructor; [|auto].
  intros Hin. apply Hnotin. clear -Hin.
  induction l as [|y l IHl]; simpl in *; [assumption|].
  destruct (p y); simpl in *; tauto.
Qed.

(** The constraint of [create] keeps the shortcodes unique. *)
Lemma Image_create_urls (ok : bool) (row : database.Image) (w : World) :
  List.NoDup (map database.url (registry w)) ->
  List.NoDup (map database.url (registry (fst (Image_create ok row w)))).
Proof.
  intros H. unfold Image_create.
  destruct ok; simpl; [|assumption].
  destruct (existsb (has_url (database.url row)) (registry w)) eqn:E;
    simpl; [assumption|].
  rewrite map_app. simpl.
  apply List.NoDup_app; [assumption | constructor; [simpl; tauto | constructor] |].
  intros u Hu [<-|[]].
  apply in_map_iff in Hu as [r [Hr Hin]].
  assert (X : existsb (has_url (database.url row)) (registry w) = true).
  { apply existsb_exists. exists r. split; [assumption|].
    unfold has_url. rewrite Hr. apply String.eqb_refl. }
  congruence.
Qed.

Lemma commit_others_urls (rows : list database.Image) (w : World) :
  List.NoDup (map database.url (registry w)) ->
  List.NoDup (map database.url (registry (fst (commit_others rows w)))).
Proof.
  unfold commit_others. simpl. revert w.
  induction rows as [|row rows IH]; intros w H; simpl; [assumption|].
  apply IH. now apply Image_create_urls.
Qed.

(** ** The upload handler *)

Section Upload.

Context {unicode : Unicode}.
Variable config : Config.

Lemma new_shortcode_world (ok : bool) (ds : list (list nat)) (w : World) :
  fst (new_shortcode config ok ds w) = w.
Proof.
  induction ds as [|d ds IH]; simpl; [reflexivity|].
  unfold bind, lift, select_where_url.
  destruct (generate_random_string config _ d); simpl; try reflexivity.
  destruct ok; simpl; [|reflexivity].
  destruct (exists_ _); [apply IH | reflexivity].
Qed.

(** The loop returns a code that no row has. *)
Lemma new_shortcode_fresh (ok : bool) (ds : list (list nat)) (w w' : World)
    (c : string) :
  new_shortcode config ok ds w = (w', Returns c) ->
  existsb (has_url c) (registry w) = false.
Proof.
  induction ds as [|d ds IH]; simpl; [discriminate|].
  unfold bind, lift, select_where_url.
  destruct (generate_random_string config _ d) as [u| |]; simpl; try discriminate.
  destruct ok; simpl; [|discriminate].
  destruct (List.filter (has_url u) (registry w)) as [|r rs] eqn:F; simpl.
  - unfold ret. intros H. injection H as <- <-.
    destruct (existsb (has_url u) (registry w)) eqn:X; [|reflexivity].
    apply existsb_exists in X as [r [Hin Hr]].
    assert (Hf : In r (List.filter (has_url u) (registry w)))
      by (apply filter_In; auto).
    rewrite F in Hf. destruct Hf.
  - apply IH.
Qed.

Lemma upload_img_accepted (req : UploadRequest) (env : UploadEnv)
    (file : FileStorage) :
  accepted config req file ->
  upload_img config req env
  = try_except (upload_try config env file (uuid4 env) (new_filename_of env file))
               (ret (Text generic_error_message)).
Proof.
  intros (Hm & Hf & Hn & Ha). unfold upload_img. rewrite Hm, Hf, Ha.
  apply String.eqb_neq in Hn. rewrite Hn. reflexivity.
Qed.

Lemma upload_try_stages (env : UploadEnv) (file : FileStorage)
    (new_filename : string) (w : World) :
  upload_try config env file (uuid4 env) new_filename w =
  match new_shortcode config (select_ok env) (draws env) w with
  | (_, Returns new_url) => upload_stages config env file new_filename new_url w
  | (_, Raises e) => (w, Raises e)
  | (_, OutOfDraws) => (w, OutOfDraws)
  end.
Proof.
  unfold upload_try, bind at 1.
  pose proof (new_shortcode_world (select_ok env) (draws env) w) as Hw.
  destruct (new_shortcode config (select_ok env) (draws env) w) as [w1 [c|e|]];
    simpl in Hw; subst w1; try reflexivity.
  unfold upload_stages, with_others, staged_path, bind, commit_others,
    file_save, make_s3_upload, s3_upload, add_to_database, Image_create,
    os_remove, ret.
  cbn [fst snd].
  set (w2 := fold_left _ (concurrent env) w).
  destruct (save_ok env); cbn [negb]; [|reflexivity].
  cbn [disk set_disk]. rewrite lookup_insert_eq.
  destruct (put_ok env); cbn [negb]; [|reflexivity].
  destruct (create_ok env); cbn [negb]; [|reflexivity].
  cbn [registry set_s3 set_disk set_registry database.url upload_row].
  destruct (existsb (has_url c) (registry w2)); [reflexivity|].
  cbn [disk set_s3 set_disk set_registry]. rewrite lookup_insert_eq.
  destruct (remove_ok env); reflexivity.
Qed.

Lemma upload_img_not_accepted (req : UploadRequest) (env : UploadEnv) (w : World) :
  (forall file, ~ accepted config req file) ->
  fst (upload_img config req env w) = w.
Proof.
  intros H. unfold upload_img.
  destruct (method req) eqn:Hm; [reflexivity|].
  destruct (files_file req) as [file|] eqn:Hf; [|reflexivity].
  destruct (String.eqb (fs_filename file) EmptyString) eqn:Hn; [reflexivity|].
  destruct (is_acceptable_filename config (fs_filename file)) eqn:Ha; [|reflexivity].
  exfalso. apply (H file). apply String.eqb_neq in Hn. repeat split; assumption.
Qed.

Lemma accepted_dec (req : UploadRequest) :
  (exists file, accepted config req file) \/ (forall file, ~ accepted config req file).
Proof.
  unfold accepted.
  destruct (method req) eqn:Hm; [right; intros f (H & _); discriminate|].
  destruct (files_file req) as [file|] eqn:Hf;
    [|right; intros f (_ & H & _); discriminate].
  destruct (String.eqb (fs_filename file) EmptyString) eqn:Hn.
  - apply String.eqb_eq in Hn. right. intros f (_ & H & H' & _).
    injection H as <-. contradiction.
  - apply String.eqb_neq in Hn.
    destruct (is_acceptable_filename config (fs_filename file)) eqn:Ha.
    + left. exists file. auto.
    + right. intros f (_ & H & _ & H'). injection H as <-. congruence.
Qed.

(** What the handler does on an accepted upload, from the stages. *)
Lemma upload_img_stages (req : UploadRequest) (env : UploadEnv)
    (file : FileStorage) (w : World) :
  accepted config req file ->
  upload_img config req env w =
  match new_shortcode config (select_ok env) (draws env) w with
  | (_, Returns new_url) =>
      match upload_stages config env file (new_filename_of env file) new_url w with
      | (w', Raises _) => (w', Returns (Text generic_error_message))
      | r => r
      end
  | (_, Raises e) => (w, Returns (Text generic_error_message))
  | (_, OutOfDraws) => (w, OutOfDraws)
  end.
Proof.
  intros Ha. rewrite (upload_img_accepted _ _ _ Ha). unfold try_except.
  rewrite upload_try_stages.
  destruct (new_shortcode config (select_ok env) (draws env) w) as [w1 [c|e|]];
    reflexivity.
Qed.

(** C1: a row for an upload is appended to the registry only when the
    upload of the staged file to the object store succeeded, and then the
    object that the row names is in the store with the uploaded content;
    when the remote upload raises, the registry holds no row of this
    upload. *)
Theorem C1_record_only_after_remote_upload
    (req : UploadRequest) (env : UploadEnv) (w w' : World)
    (out : outcome Response) :
  upload_img config req env w = (w', out) ->
  (put_ok env = false ->
   registry w' = registry w \/ registry w' = registry (with_others env w)) /\
  (registry w' = registry w \/ registry w' = registry (with_others env w) \/
   exists file row,
     files_file req = Some file /\
     registry w' = (registry (with_others env w) ++ [row])%list /\
     database.image_guid row = uuid4 env /\
     put_ok env = true /\
     s3 w' !! (database.bucket row, database.filename row)
     = Some (fs_content file)).
Proof.
  intros H.
  destruct (accepted_dec req) as [[file Ha]|Hn].
  2:{ pose proof (upload_img_not_accepted req env w Hn) as Hw.
      rewrite H in Hw. simpl in Hw. subst w'. auto. }
  rewrite (upload_img_stages _ _ _ _ Ha) in H.
  destruct (new_shortcode config (select_ok env) (draws env) w) as [w1 [c|e|]].
  2,3: injection H as <- _; auto.
  unfold upload_stages in H.
  destruct (save_ok env); cbn [negb] in H; [|injection H as <- _; auto].
  destruct (put_ok env); cbn [negb] in H; [|injection H as <- _; auto].
  destruct (create_ok env); cbn [negb] in H; [|injection H as <- _; auto].
  destruct (existsb (has_url c) (registry (with_others env w)));
    [injection H as <- _; auto|].
  split; [discriminate|]. right. right.
  exists file, (upload_row config env (new_filename_of env file) c).
  destruct Ha as (_ & Hf & _).
  destruct (remove_ok env); cbn [negb] in H; injection H as <- _;
    cbn [registry s3 set_disk set_registry set_s3 upload_row
         database.bucket database.filename database.image_guid];
    rewrite lookup_insert_eq; auto.
Qed.

(** C3, as the handler has it: a POST whose file name has no dot, or whose
    extension (what follows the last dot of the lowered name) is not
    configured, leaves the table, the object store and the disk as they
    were; the answer is the invalid-file message when the name is not
    empty, and the no-file message when it is. *)
Theorem C3_invalid_type_no_side_effect
    (req : UploadRequest) (env : UploadEnv) (file : FileStorage) (w : World) :
  method req = POST ->
  files_file req = Some file ->
  (PyStr.contains "." (fs_filename file) = false \/
   (forall stem ext,
      str_lower (fs_filename file) = stem ++ String "." ext ->
      PyStr.contains "." ext = false ->
      ~ In ext (file_extentions config))) ->
  upload_img config req env w
  = (w, Returns (Text (if String.eqb (fs_filename file) EmptyString
                       then "Error: no file was provided"
                       else invalid_file_message config))).
Proof.
  intros Hm Hf Hx. unfold upload_img. rewrite Hm, Hf.
  destruct (String.eqb (fs_filename file) EmptyString); [reflexivity|].
  now rewrite (is_acceptable_filename_false config _ Hx).
Qed.

(** C5: when the [try] block of an accepted upload runs to its end, the
    handler returns its value, which is the application path, a slash, the
    shortcode of the row just appended, and [.png]. *)
Theorem C5_success_returns_public_link
    (req : UploadRequest) (env : UploadEnv) (file : FileStorage)
    (w w' : World) (resp : Response) :
  accepted config req file ->
  upload_try config env file (uuid4 env) (new_filename_of env file) w
  = (w', Returns resp) ->
  upload_img config req env w = (w', Returns resp) /\
  exists row,
    registry w' = (registry (with_others env w) ++ [row])%list /\
    database.image_guid row = uuid4 env /\
    resp = Text (app_path config ++ "/" ++ database.url row ++ ".png").
Proof.
  intros Ha H. split.
  - rewrite (upload_img_accepted _ _ _ Ha). unfold try_except. now rewrite H.
  - rewrite upload_try_stages in H.
    destruct (new_shortcode config (select_ok env) (draws env) w) as [w1 [c|e|]];
      try discriminate.
    unfold upload_stages in H.
    destruct (save_ok env); cbn [negb] in H; [|discriminate].
    destruct (put_ok env); cbn [negb] in H; [|discriminate].
    destruct (create_ok env); cbn [negb] in H; [|discriminate].
    destruct (existsb (has_url c) (registry (with_others env w))); [discriminate|].
    destruct (remove_ok env); cbn [negb] in H; [|discriminate].
    injection H as <- <-.
    exists (upload_row config env (new_filename_of env file) c). auto.
Qed.

(** The staged file is gone after a successful upload. *)
Lemma staged_file_removed_on_success
    (env : UploadEnv) (file : FileStorage) (w w' : World) (resp : Response) :
  upload_try config env file (uuid4 env) (new_filename_of env file) w
  = (w', Returns resp) ->
  disk w' !! staged_path config (new_filename_of env file) = None.
Proof.
  intros H. rewrite upload_try_stages in H.
  destruct (new_shortcode config (select_ok env) (draws env) w) as [w1 [c|e|]];
    try discriminate.
  unfold upload_stages in H.
  destruct (save_ok env); cbn [negb] in H; [|discriminate].
  destruct (put_ok env); cbn [negb] in H; [|discriminate].
  destruct (create_ok env); cbn [negb] in H; [|discriminate].
  destruct (existsb (has_url c) (registry (with_others env w))); [discriminate|].
  destruct (remove_ok env); cbn [negb] in H; [|discriminate].
  injection H as <- _. cbn [disk set_disk]. apply lookup_delete_eq.
Qed.

(** The staged file stays when the object store or the commit fails: the
    handler of the exception does not remove it. *)
Lemma staged_file_kept_on_failure
    (req : UploadRequest) (env : UploadEnv) (file : FileStorage)
    (w w1 : World) (c : string) :
  accepted config req file ->
  new_shortcode config (select_ok env) (draws env) w = (w1, Returns c) ->
  save_ok env = true ->
  put_ok env = false \/ create_ok env = false
  \/ existsb (has_url c) (registry (with_others env w)) = true ->
  disk (fst (upload_img config req env w))
    !! staged_path config (new_filename_of env file)
  = Some (fs_content file).
Proof.
  intros Ha Hc Hs Hfail. rewrite (upload_img_stages _ _ _ _ Ha), Hc.
  unfold upload_stages. rewrite Hs. cbn [negb].
  destruct (put_ok env); cbn [negb];
    [|cbn [fst disk set_disk]; apply lookup_insert_eq].
  destruct (create_ok env); cbn [negb];
    [|cbn [fst disk set_disk set_s3]; apply lookup_insert_eq].
  destruct (existsb (has_url c) (registry (with_others env w)));
    [cbn [fst disk set_disk set_s3]; apply lookup_insert_eq|].
  destruct Hfail as [H|[H|H]]; discriminate.
Qed.

(** C4, as the handler has it: when the chosen code has been committed by
    another request before the commit of this upload, the commit raises the
    uniqueness violation, no second code is drawn, no row is written for the
    upload, and the caller gets the generic error message. *)
Theorem C4_collision_is_reported_not_retried
    (req : UploadRequest) (env : UploadEnv) (file : FileStorage)
    (w w1 : World) (c : string) :
  accepted config req file ->
  new_shortcode config (select_ok env) (draws env) w = (w1, Returns c) ->
  existsb (has_url c) (registry (with_others env w)) = true ->
  save_ok env = true -> put_ok env = true -> create_ok env = true ->
  exists w',
    upload_try config env file (uuid4 env) (new_filename_of env file) w
    = (w', Raises IntegrityError) /\
    upload_img config req env w = (w', Returns (Text generic_error_message)) /\
    registry w' = registry (with_others env w).
Proof.
  intros Ha Hc Ht Hs Hp Hd.
  rewrite (upload_img_stages _ _ _ _ Ha), upload_try_stages, Hc.
  unfold upload_stages. rewrite Hs, Hp, Hd, Ht. cbn [negb].
  eexists. repeat split.
Qed.

(** C10: on an accepted upload every exception of the [try] block, whatever
    it is and wherever it was raised, is answered by the same message; so
    are in particular a failed staging, a failed remote upload and a failed
    commit. *)
Theorem C10_one_generic_error
    (req : UploadRequest) (env : UploadEnv) (file : FileStorage) (w : World) :
  accepted config req file ->
  (forall w' e,
     upload_try config env file (uuid4 env) (new_filename_of env file) w
     = (w', Raises e) ->
     upload_img config req env w = (w', Returns (Text generic_error_message))) /\
  (forall w1 c,
     new_shortcode config (select_ok env) (draws env) w = (w1, Returns c) ->
     save_ok env = false \/ put_ok env = false \/ create_ok env = false
     \/ existsb (has_url c) (registry (with_others env w)) = true
     \/ remove_ok env = false ->
     snd (upload_img config req env w) = Returns (Text generic_error_message)).
Proof.
  intros Ha. split.
  - intros w' e H. rewrite (upload_img_accepted _ _ _ Ha).
    unfold try_except. now rewrite H.
  - intros w1 c Hc Hfail. rewrite (upload_img_stages _ _ _ _ Ha), Hc.
    unfold upload_stages.
    destruct (save_ok env); cbn [negb]; [|reflexivity].
    destruct (put_ok env); cbn [negb]; [|reflexivity].
    destruct (create_ok env); cbn [negb]; [|reflexivity].
    destruct (existsb (has_url c) (registry (with_others env w))); [reflexivity|].
    destruct (remove_ok env); cbn [negb]; [|reflexivity].
    destruct Hfail as [H|[H|[H|[H|H]]]]; discriminate.
Qed.

Lemma exists_filter (u : string) (l : list database.Image) :
  exists_ (List.filter (has_url u) l) = existsb (has_url u) l.
Proof.
  induction l as [|r l IH]; simpl; [reflexivity|].
  destruct (has_url u r); simpl; [reflexivity | exact IH].
Qed.

(** The loop ends at the first draw whose code is free. *)
Lemma new_shortcode_first_free
    (taken : list (list nat)) (d : list nat) (rest : list (list nat))
    (c : string) (w : World) :
  Forall (fun d' => exists c',
            generate_random_string config (default_url_length config) d'
            = Returns c'
            /\ existsb (has_url c') (registry w) = true) taken ->
  generate_random_string config (default_url_length config) d = Returns c ->
  existsb (has_url c) (registry w) = false ->
  new_shortcode config true (taken ++ d :: rest) w = (w, Returns c).
Proof.
  intros Ht Hd Hc. induction Ht as [|d' taken [c' [Hg Hx]] _ IH]; simpl.
  - unfold bind, lift, select_where_url. rewrite Hd.
    now rewrite exists_filter, Hc.
  - unfold bind, lift, select_where_url. rewrite Hg.
    now rewrite exists_filter, Hx.
Qed.

(** The handler keeps the shortcodes of the table unique. *)
Lemma upload_img_urls (req : UploadRequest) (env : UploadEnv) (w : World) :
  List.NoDup (map database.url (registry w)) ->
  List.NoDup (map database.url (registry (fst (upload_img config req env w)))).
Proof.
  intros H.
  destruct (accepted_dec req) as [[file Ha]|Hn];
    [|now rewrite upload_img_not_accepted].
  rewrite (upload_img_stages _ _ _ _ Ha).
  destruct (new_shortcode config (select_ok env) (draws env) w) as [w1 [c|e|]];
    try assumption.
  pose proof (commit_others_urls (concurrent env) w H) as H2.
  fold (with_others env w) in H2.
  pose proof (Image_create_urls true
                (upload_row config env (new_filename_of env file) c) _ H2) as H3.
  unfold Image_create in H3. cbn [negb database.url upload_row] in H3.
  unfold upload_stages.
  destruct (save_ok env); cbn [negb]; [|assumption].
  destruct (put_ok env); cbn [negb]; [|assumption].
  destruct (create_ok env); cbn [negb]; [|assumption].
  destruct (existsb (has_url c) (registry (with_others env w))); [assumption|].
  destruct (remove_ok env); exact H3.
Qed.

End Upload.

(** *** The upload handler on the sample requests *)

Lemma accepted_post_cat : accepted Examples.cfg Examples.post_cat Examples.cat.
Proof. repeat split. discriminate. Qed.

Lemma C1_witness :
  let env := Examples.calm "6f1c" 1500000000 in
  let w' := fst (upload_img Examples.cfg Examples.post_cat env Examples.empty_world) in
  (put_ok env = false ->
   registry w' = [] \/ registry w' = registry (with_others env Examples.empty_world)) /\
  (registry w' = [] \/ registry w' = registry (with_others env Examples.empty_world) \/
   exists file row,
     Some Examples.cat = Some file /\
     registry w' = (registry (with_others env Examples.empty_world) ++ [row])%list /\
     database.image_guid row = "6f1c" /\
     put_ok env = true /\
     s3 w' !! (database.bucket row, database.filename row)
     = Some (fs_content file)).
Proof.
  intros env w'.
  apply (C1_record_only_after_remote_upload (unicode := ascii_tables) Examples.cfg Examples.post_cat env
           Examples.empty_world w'
           (snd (upload_img Examples.cfg Examples.post_cat env Examples.empty_world))).
  vm_compute. reflexivity.
Defined.

(** C2, at a request for which the object store refuses the upload: the
    handler answers with the generic error message and the file that it
    staged is still in the upload directory. *)
Theorem C2_staged_file_left_when_remote_upload_fails :
  let r := upload_img Examples.cfg Examples.post_cat Examples.s3_down
             Examples.empty_world in
  snd r = Returns (Text generic_error_message) /\
  disk Examples.empty_world !! "uploads/6f1c.jpg" = None /\
  disk (fst r) !! "uploads/6f1c.jpg" = Some "JFIF".
Proof. vm_compute. repeat split. Qed.

Lemma C3_witness :
  upload_img Examples.cfg Examples.post_readme (Examples.calm "6f1c" 7)
    Examples.empty_world
  = (Examples.empty_world, Returns (Text (invalid_file_message Examples.cfg))).
Proof.
  apply (C3_invalid_type_no_side_effect (unicode := ascii_tables) Examples.cfg Examples.post_readme
           (Examples.calm "6f1c" 7)
           {| fs_filename := "README"; fs_content := "text" |}).
  - reflexivity.
  - reflexivity.
  - left. reflexivity.
Defined.

(** C3, as stated, fails for a file sent without a name: the name has no
    dot, and the answer is the no-file message, not the invalid-file one. *)
Lemma C3_unnamed_file_other_error :
  PyStr.contains "." (fs_filename Samples.unnamed) = false /\
  upload_img Examples.cfg Samples.post_unnamed (Examples.calm "6f1c" 7)
    Examples.empty_world
  = (Examples.empty_world, Returns (Text "Error: no file was provided")) /\
  Text "Error: no file was provided" <> Text (invalid_file_message Examples.cfg).
Proof. repeat split. discriminate. Qed.

(** An extension outside the list: [malware.exe]. *)
Example upload_exe_rejected :
  upload_img Examples.cfg Examples.post_exe (Examples.calm "6f1c" 7)
    Examples.empty_world
  = (Examples.empty_world,
     Returns (Text ("Error: An invalid file was provided. "
                    ++ "Files must be one of the following: .png, .jpg, .gif"))).
Proof. reflexivity. Qed.

(** C4, as stated, fails when another request takes the code [abc] between
    the check and the commit: the commit raises the uniqueness violation,
    the caller gets the generic error message, which is no public link, and
    the table holds the row of the other request only. *)
Lemma C4_collision_surfaces :
  let r := upload_img Examples.cfg Examples.post_cat Examples.racing
             Examples.empty_world in
  upload_try Examples.cfg Examples.racing Examples.cat "6f1c" "6f1c.jpg"
    Examples.empty_world = (fst r, Raises IntegrityError) /\
  snd r = Returns (Text generic_error_message) /\
  (forall code,
     snd r <> Returns (Text (app_path Examples.cfg ++ "/" ++ code ++ ".png"))) /\
  registry (fst r) = [Examples.rival].
Proof.
  vm_compute. repeat split. intros code H. discriminate.
Qed.

Lemma C4_witness :
  exists w',
    upload_try Examples.cfg Examples.racing Examples.cat "6f1c" "6f1c.jpg"
      Examples.empty_world = (w', Raises IntegrityError) /\
    upload_img Examples.cfg Examples.post_cat Examples.racing Examples.empty_world
    = (w', Returns (Text generic_error_message)) /\
    registry w' = [Examples.rival].
Proof.
  apply (C4_collision_is_reported_not_retried (unicode := ascii_tables) Examples.cfg Examples.post_cat
           Examples.racing Examples.cat Examples.empty_world
           Examples.empty_world "abc").
  - exact accepted_post_cat.
  - reflexivity.
  - reflexivity.
  - reflexivity.
  - reflexivity.
  - reflexivity.
Defined.

Lemma C5_witness :
  let env := Examples.calm "6f1c" 1500000000 in
  let r := upload_img Examples.cfg Examples.post_cat env Examples.empty_world in
  r = (fst r, Returns (Text "http://img.example/abc.png")) /\
  exists row,
    registry (fst r) = (registry (with_others env Examples.empty_world) ++ [row])%list /\
    database.image_guid row = "6f1c" /\
    Text "http://img.example/abc.png"
    = Text (app_path Examples.cfg ++ "/" ++ database.url row ++ ".png").
Proof.
  intros env r.
  apply (C5_success_returns_public_link (unicode := ascii_tables) Examples.cfg Examples.post_cat env
           Examples.cat Examples.empty_world (fst r)
           (Text "http://img.example/abc.png")).
  - exact accepted_post_cat.
  - vm_compute. reflexivity.
Defined.

Lemma C10_witness :
  (forall w' e,
     upload_try Examples.cfg Examples.s3_down Examples.cat "6f1c" "6f1c.jpg"
       Examples.empty_world = (w', Raises e) ->
     upload_img Examples.cfg Examples.post_cat Examples.s3_down Examples.empty_world
     = (w', Returns (Text generic_error_message))) /\
  (forall w1 c,
     new_shortcode Examples.cfg true [[0; 1; 2]%nat] Examples.empty_world
     = (w1, Returns c) ->
     true = false \/ false = false \/ true = false
     \/ existsb (has_url c)
          (registry (with_others Examples.s3_down Examples.empty_world)) = true
     \/ true = false ->
     snd (upload_img Examples.cfg Examples.post_cat Examples.s3_down
            Examples.empty_world)
     = Returns (Text generic_error_message)).
Proof.
  apply (C10_one_generic_error (unicode := ascii_tables) Examples.cfg Examples.post_cat Examples.s3_down
           Examples.cat Examples.empty_world).
  exact accepted_post_cat.
Defined.

(** ** Sanitised names *)

Lemma filename_safe_is_ascii (c : ascii) :
  filename_safe c = true -> is_ascii c = true.
Proof.
  destruct c as [[] [] [] [] [] [] [] []]; vm_compute; intros H;
    first [reflexivity | discriminate H].
Qed.

Lemma filename_safe_not_space (c : ascii) :
  filename_safe c = true -> negb (PyStr.is_space c) = true.
Proof.
  destruct c as [[] [] [] [] [] [] [] []]; vm_compute; intros H;
    first [reflexivity | discriminate H].
Qed.

Lemma filename_safe_not_slash (s : string) :
  PyStr.forallb filename_safe s = true -> PyStr.contains "/" s = false.
Proof.
  induction s as [|c s IH]; simpl; [reflexivity|].
  intros H. apply andb_prop in H as [Hc Hs]. rewrite (IH Hs), orb_false_r.
  destruct c as [[] [] [] [] [] [] [] []]; vm_compute in Hc |- *;
    first [reflexivity | discriminate Hc].
Qed.

Section Sanitised.

Context {unicode : Unicode}.

(** A name of safe characters with no dot or underscore at either end is
    left as it is. *)
Lemma secure_filename_fixed (s : string) :
  PyStr.forallb filename_safe s = true ->
  PyStr.lstrip dot_or_underscore s = s ->
  PyStr.rstrip dot_or_underscore s = s ->
  secure_filename s = s.
Proof.
  intros Hsafe Hl Hr. unfold secure_filename.
  rewrite nfkd_ascii
    by (eapply PyStrFacts.forallb_impl; [apply filename_safe_is_ascii | exact Hsafe]).
  rewrite (PyStrFacts.filter_id is_ascii)
    by (eapply PyStrFacts.forallb_impl; [apply filename_safe_is_ascii | exact Hsafe]).
  rewrite PyStrFacts.replace_id by (now apply filename_safe_not_slash).
  rewrite PyStrFacts.join_split_ws_id
    by (eapply PyStrFacts.forallb_impl; [apply filename_safe_not_space | exact Hsafe]).
  rewrite (PyStrFacts.filter_id filename_safe) by exact Hsafe.
  unfold PyStr.strip. now rewrite Hl, Hr.
Qed.

(** Every sanitised name is such a name. *)
Lemma secure_filename_idem (name : string) :
  secure_filename (secure_filename name) = secure_filename name.
Proof.
  apply secure_filename_fixed.
  - unfold secure_filename, PyStr.strip.
    apply PyStrFacts.rstrip_forallb, PyStrFacts.lstrip_forallb,
      PyStrFacts.filter_forallb.
  - apply PyStrFacts.strip_fixed.
  - apply PyStrFacts.strip_fixed.
Qed.

End Sanitised.

(** ** Retrieval *)

Section Retrieval.

Variable config : Config.

(** The page that [get_image] renders for a row. *)
Lemma get_image_lookup (filename : string) (w : World) :
  PyStr.contains "." filename = false ->
  get_image config true (Some filename) w =
  match find (has_url filename) (registry w) with
  | None => (w, Returns (Text "404"))
  | Some row =>
      (w, Returns (Render "display_image.html"
                     (Some (models.TemplateDisplayImage (app_path config)
                              ("http://" ++ aws_s3_endpoint config ++ "/"
                               ++ database.bucket row ++ "/"
                               ++ database.filename row)))))
  end.
Proof.
  intros Hd. unfold get_image. rewrite Hd.
  unfold bind, select_where_url, ret.
  destruct (find (has_url filename) (registry w)) as [row|] eqn:F.
  - apply filter_cons_find in F as [rest ->]. reflexivity.
  - apply filter_nil_find in F. now rewrite F.
Qed.

(** A name with a dot is looked up by what stands before its first dot. *)
Lemma get_image_first_field (ok : bool) (filename : string) (w : World) :
  get_image config ok (Some filename) w
  = get_image config ok (Some (hd EmptyString (PyStr.split "." filename))) w.
Proof.
  unfold get_image.
  rewrite (PyStrFacts.contains_split_head "." filename).
  destruct (PyStr.contains "." filename) eqn:E; [reflexivity|].
  now rewrite PyStrFacts.split_head_no_sep.
Qed.

(** C6, as the handler has it: a name is looked up by what stands before
    its first dot, so [s.ext] and [s] are the same lookup; for a shortcode
    without a dot the answer is 404 when no row has it and otherwise the
    page with the URL made of the endpoint and of the bucket and file name
    of the first such row. *)
Theorem C6_resolve_by_first_field (ok : bool) (s ext : string) (w : World) :
  get_image config ok (Some (s ++ "." ++ ext)) w = get_image config ok (Some s) w /\
  (PyStr.contains "." s = false ->
   ((forall row, In row (registry w) -> database.url row <> s) ->
    get_image config true (Some s) w = (w, Returns (Text "404"))) /\
   (forall row, find (has_url s) (registry w) = Some row ->
    get_image config true (Some s) w =
    (w, Returns (Render "display_image.html"
                   (Some (models.TemplateDisplayImage (app_path config)
                            ("http://" ++ aws_s3_endpoint config ++ "/"
                             ++ database.bucket row ++ "/"
                             ++ database.filename row))))))).
Proof.
  split.
  - rewrite (get_image_first_field ok (s ++ "." ++ ext)),
      (get_image_first_field ok s).
    simpl. now rewrite PyStrFacts.split_head_extend.
  - intros Hd. split.
    + intros Hnone. rewrite (get_image_lookup _ _ Hd).
      destruct (find (has_url s) (registry w)) as [row|] eqn:F; [|reflexivity].
      apply find_some in F as [Hin Hu]. apply String.eqb_eq in Hu.
      exfalso. exact (Hnone row Hin Hu).
    + intros row F. now rewrite (get_image_lookup _ _ Hd), F.
Qed.

End Retrieval.

(** C6, as stated, fails for a shortcode with a dot.  With the alphabet
    [a.b] an upload commits the shortcode [a.b]; neither [a.b] nor [a.b.png]
    resolves to its row, and both are answered by 404. *)
Lemma C6_dotted_shortcode_not_found :
  let c := Examples.with_alphabet "a.b" in
  let w := Examples.after_upload c "6f1c" 1500000000 Examples.empty_world in
  map database.url (registry w) = ["a.b"] /\
  get_image c true (Some "a.b") w = (w, Returns (Text "404")) /\
  get_image c true (Some "a.b.png") w = (w, Returns (Text "404")).
Proof. vm_compute. repeat split. Qed.

Lemma C6_witness :
  let w := Examples.after_upload Examples.cfg "6f1c" 1500000000 Examples.empty_world in
  get_image Examples.cfg true (Some ("abc" ++ "." ++ "png")) w
  = get_image Examples.cfg true (Some "abc") w /\
  get_image Examples.cfg true (Some "abc") w =
  (w, Returns (Render "display_image.html"
                 (Some (models.TemplateDisplayImage "http://img.example"
                          "http://s3.example/pictures/img/6f1c.jpg")))).
Proof.
  intros w.
  destruct (C6_resolve_by_first_field Examples.cfg true "abc" "png" w) as [H1 H2].
  split; [exact H1|].
  destruct (H2 eq_refl) as [_ H3].
  exact (H3 (Examples.cat_row "6f1c" 1500000000) eq_refl).
Defined.

(** ** Listing *)

Lemma Z_eqb_opp (a b : Z) : (- a =? - b) = (a =? b).
Proof.
  destruct (a =? b) eqn:E.
  - apply Z.eqb_eq in E. subst. apply Z.eqb_refl.
  - apply Z.eqb_neq in E. apply Z.eqb_neq. lia.
Qed.

Lemma StronglySorted_weaken (R R' : models.Image -> models.Image -> Prop)
    (l : list models.Image) :
  (forall a b, R a b -> R' a b) -> StronglySorted R l -> StronglySorted R' l.
Proof.
  intros HR. induction 1 as [|a l Hl IH Ha]; constructor; [assumption|].
  eapply List.Forall_impl; [|exact Ha]. apply HR.
Qed.

Section Sorting.

Variable key : models.Image -> Z.

Lemma insert_by_perm (x : models.Image) (l : list models.Image) :
  Permutation (x :: l) (insert_by key x l).
Proof.
  induction l as [|y l IH]; simpl; [reflexivity|].
  destruct (key x <=? key y); [reflexivity|].
  rewrite perm_swap. now constructor.
Qed.

Lemma sorted_perm (l : list models.Image) : Permutation l (sorted key l).
Proof.
  induction l as [|x l IH]; simpl; [constructor|].
  rewrite <- insert_by_perm. now constructor.
Qed.

Lemma insert_by_sorted (x : models.Image) (l : list models.Image) :
  StronglySorted (fun a b => key a <= key b) l ->
  StronglySorted (fun a b => key a <= key b) (insert_by key x l).
Proof.
  induction l as [|y l IH]; simpl; intros H.
  - constructor; constructor.
  - inversion H as [|y' l' Hl Hy]; subst.
    destruct (key x <=? key y) eqn:E.
    + apply Z.leb_le in E. constructor; [assumption|].
      constructor; [assumption|].
      eapply List.Forall_impl; [|exact Hy]. simpl. intros a Ha. lia.
    + apply Z.leb_gt in E. constructor; [auto|].
      eapply Permutation_Forall; [apply insert_by_perm|].
      constructor; [lia | assumption].
Qed.

Lemma sorted_sorted (l : list models.Image) :
  StronglySorted (fun a b => key a <= key b) (sorted key l).
Proof.
  induction l as [|x l IH]; simpl; [constructor|].
  now apply insert_by_sorted.
Qed.

(** Insertion puts an element in front of the elements of equal key. *)
Lemma insert_by_filter (k : Z) (x : models.Image) (l : list models.Image) :
  List.filter (fun a => key a =? k) (insert_by key x l)
  = List.filter (fun a => key a =? k) (x :: l).
Proof.
  induction l as [|y l IH]; simpl; [reflexivity|].
  destruct (key x <=? key y) eqn:E; [reflexivity|].
  apply Z.leb_gt in E. simpl in *. rewrite IH.
  destruct (key x =? k) eqn:Ex; [|reflexivity].
  apply Z.eqb_eq in Ex.
  destruct (key y =? k) eqn:Ey; [|reflexivity].
  apply Z.eqb_eq in Ey. lia.
Qed.

(** The sort is stable: the elements of one key keep their order. *)
Lemma sorted_stable (k : Z) (l : list models.Image) :
  List.filter (fun a => key a =? k) (sorted key l)
  = List.filter (fun a => key a =? k) l.
Proof.
  induction l as [|x l IH]; simpl; [reflexivity|].
  rewrite insert_by_filter. simpl. now rewrite IH.
Qed.

Lemma insert_by_least (x : models.Image) (l : list models.Image) :
  (forall y, In y l -> key x <= key y) -> insert_by key x l = x :: l.
Proof.
  destruct l as [|y l]; simpl; [reflexivity|].
  intros H. assert (E : key x <= key y) by (apply H; auto).
  apply Z.leb_le in E. now rewrite E.
Qed.

(** An element whose key is below all the others comes out first,
    wherever it stands. *)
Lemma sorted_least_first (x : models.Image) (l1 l2 : list models.Image) :
  (forall y, In y (l1 ++ l2) -> key x < key y) ->
  sorted key (l1 ++ x :: l2) = x :: sorted key (l1 ++ l2).
Proof.
  induction l1 as [|a l1 IH]; simpl; intros H.
  - apply insert_by_least. intros y Hy.
    assert (Hin : In y l2)
      by (eapply Permutation_in; [symmetry; apply sorted_perm|exact Hy]).
    specialize (H y Hin). lia.
  - rewrite IH by (intros y Hy; apply H; auto). simpl.
    assert (E : key x < key a) by (apply H; auto).
    apply Z.leb_gt in E. now rewrite E.
Qed.

End Sorting.

Section Listing.

Variable config : Config.

(** C7, as the handler has it: the listing holds every row once, newest
    first; rows of one timestamp keep their table order, and a second call
    returns the same listing; a row whose timestamp is greater than every
    other one is first in the listing, wherever the table holds it. *)
Theorem C7_listing_newest_first (w : World) :
  exists l,
    get_images config true w = (w, Returns l) /\
    (do l1 <- get_images config true; do l2 <- get_images config true; ret (l1, l2)) w
    = (w, Returns (l, l)) /\
    Permutation (map (to_model config) (registry w)) l /\
    StronglySorted (fun a b => models.timestamp a >= models.timestamp b) l /\
    (forall t,
       List.filter (fun m => models.timestamp m =? t) l
       = List.filter (fun m => models.timestamp m =? t)
           (map (to_model config) (registry w))) /\
    (forall row before after,
       registry w = (before ++ after)%list ->
       (forall r, In r (registry w) -> database.timestamp r < database.timestamp row) ->
       get_images config true (set_registry w (before ++ row :: after))
       = (set_registry w (before ++ row :: after),
          Returns (to_model config row :: l))).
Proof.
  exists (sorted (fun image => - models.timestamp image)
            (map (to_model config) (registry w))).
  split; [reflexivity|]. split; [reflexivity|].
  split; [apply sorted_perm|]. split; [|split].
  - eapply StronglySorted_weaken;
      [|apply (sorted_sorted (fun image => - models.timestamp image))].
    intros a b H. simpl in H. lia.
  - intros t.
    pose proof (sorted_stable (fun image => - models.timestamp image) (- t)
                  (map (to_model config) (registry w))) as H.
    erewrite filter_ext in H by (intros a; apply (Z_eqb_opp (models.timestamp a) t)).
    rewrite H. apply filter_ext. intros a. apply Z_eqb_opp.
  - intros row before after Hreg Hnew.
    unfold get_images, bind, select_all, ret. cbn [registry set_registry].
    rewrite map_app. simpl. rewrite sorted_least_first.
    + now rewrite <- map_app, <- Hreg.
    + intros y Hy. rewrite <- map_app, <- Hreg in Hy.
      apply in_map_iff in Hy as [r [<- Hr]]. simpl.
      specialize (Hnew r Hr). lia.
Qed.

End Listing.

(** C7, as stated, fails for two uploads within one second: the second one,
    with the code [bbb], is listed after the first. *)
Lemma C7_same_second_upload_listed_last :
  let w1 := Examples.after_upload Examples.cfg "6f1c" 1500000000 Examples.empty_world in
  let w2 := Examples.after_upload Examples.cfg "83aa" 1500000000 w1 in
  map database.url (registry w1) = ["abc"] /\
  map database.url (registry w2) = ["abc"; "bbb"] /\
  exists l, get_images Examples.cfg true w2 = (w2, Returns l) /\
            map models.shortcode l = ["abc"; "bbb"].
Proof.
  vm_compute. split; [reflexivity|]. split; [reflexivity|].
  eexists. split; reflexivity.
Qed.

(** ** Deletion *)

Section Deletion.

Context {unicode : Unicode}.
Variable config : Config.

Lemma delete_img_authorised (req : DeleteRequest) (env : DeleteEnv) :
  authorization req = Some (app_username config, app_password config) ->
  delete_img config req env = delete_img_inner config req env.
Proof.
  intros H. unfold delete_img, requires_auth, check_auth. rewrite H.
  now rewrite !String.eqb_refl.
Qed.

(** The handler, stage by stage, for a request that names a file. *)
Lemma delete_img_inner_stages (req : DeleteRequest) (env : DeleteEnv)
    (name : string) (w : World) :
  arg_filename req = Some name -> name <> EmptyString ->
  delete_img_inner config req env w =
  if negb (del_select_ok env) then (w, Raises DatabaseError) else
  match find (has_url (secure_filename name)) (registry w) with
  | None => (w, Returns (Text "The image does not exist"))
  | Some image =>
      if negb (del_s3_ok env) then (w, Raises S3Error) else
      let w1 := set_s3 w (delete (aws_s3_bucket_id config, database.filename image)
                            (s3 w)) in
      if negb (del_db_ok env) then (w1, Raises DatabaseError) else
      (set_registry w1 (remove_first (has_url (secure_filename name)) (registry w)),
       Returns (deleted_response req))
  end.
Proof.
  intros Hn Hne. unfold delete_img_inner. rewrite Hn.
  destruct name as [|c name]; [contradiction|].
  unfold bind, select_where_url.
  destruct (del_select_ok env); cbn [negb]; [|reflexivity].
  destruct (find (has_url (secure_filename (String c name))) (registry w))
    as [image|] eqn:F.
  - pose proof F as F'. apply find_some in F' as [_ Hu].
    apply String.eqb_eq in Hu.
    apply filter_cons_find in F as [rest ->].
    unfold s3_delete, delete_instance, deleted_response, ret.
    destruct (del_s3_ok env); cbn [negb]; [|reflexivity].
    destruct (del_db_ok env); cbn [negb]; [|reflexivity].
    cbn [registry set_s3]. rewrite Hu.
    destruct (arg_redirect req) as [[|d r]|]; reflexivity.
  - apply filter_nil_find in F. now rewrite F.
Qed.

(** Whatever the request, the table afterwards is the table before, with
    or without the first row of the sanitised name. *)
Lemma delete_img_registry (req : DeleteRequest) (env : DeleteEnv) (w : World) :
  registry (fst (delete_img config req env w)) = registry w \/
  exists name,
    arg_filename req = Some name /\
    registry (fst (delete_img config req env w))
    = remove_first (has_url (secure_filename name)) (registry w).
Proof.
  unfold delete_img, requires_auth.
  destruct (authorization req) as [[u p]|]; [|left; reflexivity].
  destruct (negb (check_auth config u p)); [left; reflexivity|].
  destruct (arg_filename req) as [name|] eqn:Hn;
    [|left; unfold delete_img_inner; now rewrite Hn].
  destruct (String.eqb name EmptyString) eqn:Hne.
  - apply String.eqb_eq in Hne. subst name. left.
    unfold delete_img_inner. now rewrite Hn.
  - apply String.eqb_neq in Hne.
    rewrite (delete_img_inner_stages req env name w Hn Hne).
    destruct (del_select_ok env); cbn [negb]; [|left; reflexivity].
    destruct (find _ _); [|left; reflexivity].
    destruct (del_s3_ok env); cbn [negb]; [|left; reflexivity].
    destruct (del_db_ok env); cbn [negb]; [|left; reflexivity].
    right. exists name. split; reflexivity.
Qed.

(** C8, as the handler has it: the row looked up is the one whose
    shortcode is the sanitised form of the name passed.  When there is none
    the answer is that the image does not exist and nothing changes.  When
    there is one, the object under the file name of the row is deleted from
    the configured bucket first (the bucket of the row is not read) and the
    row second: a failing remote deletion leaves everything, a failing row
    deletion leaves the row without that object.  After both, that object
    is gone, and where shortcodes are unique no row has the shortcode and,
    when it has no dot, its retrieval is answered by 404. *)
Theorem C8_delete_by_sanitised_shortcode
    (req : DeleteRequest) (env : DeleteEnv) (name : string) (w : World) :
  authorization req = Some (app_username config, app_password config) ->
  arg_filename req = Some name -> name <> EmptyString ->
  del_select_ok env = true ->
  (find (has_url (secure_filename name)) (registry w) = None ->
   delete_img config req env w = (w, Returns (Text "The image does not exist"))) /\
  (forall image,
     find (has_url (secure_filename name)) (registry w) = Some image ->
     let w1 := set_s3 w (delete (aws_s3_bucket_id config, database.filename image)
                           (s3 w)) in
     let w2 := set_registry w1
                 (remove_first (has_url (secure_filename name)) (registry w)) in
     (del_s3_ok env = false -> delete_img config req env w = (w, Raises S3Error)) /\
     (del_s3_ok env = true -> del_db_ok env = false ->
      delete_img config req env w = (w1, Raises DatabaseError)) /\
     (del_s3_ok env = true -> del_db_ok env = true ->
      delete_img config req env w = (w2, Returns (deleted_response req)) /\
      s3 w2 !! (aws_s3_bucket_id config, database.filename image) = None /\
      (List.NoDup (map database.url (registry w)) ->
       find (has_url (secure_filename name)) (registry w2) = None /\
       (PyStr.contains "." (secure_filename name) = false ->
        get_image config true (Some (secure_filename name)) w2
        = (w2, Returns (Text "404")))))).
Proof.
  intros Hauth Hn Hne Hsel.
  rewrite (delete_img_authorised _ _ Hauth),
    (delete_img_inner_stages req env name w Hn Hne), Hsel.
  cbn [negb]. split.
  - intros F. now rewrite F.
  - intros image F. cbv zeta. rewrite F. split; [|split].
    + intros Hs. now rewrite Hs.
    + intros Hs Hd. now rewrite Hs, Hd.
    + intros Hs Hd. rewrite Hs, Hd. cbn [negb].
      split; [reflexivity|]. split.
      * cbn [s3 set_s3 set_registry]. apply lookup_delete_eq.
      * intros Hu. cbn [registry set_registry].
        assert (G : find (has_url (secure_filename name))
                      (remove_first (has_url (secure_filename name)) (registry w))
                    = None)
          by (now apply remove_first_unique).
        split; [exact G|].
        intros Hdot. rewrite (get_image_lookup config _ _ Hdot).
        cbn [registry set_registry]. now rewrite G.
Qed.

(** C9: the name passed is sanitised before the lookup.  The row that an
    authorised deletion looks up and removes is the first one whose
    shortcode is the sanitised form of the name, and without such a row the
    answer is that the image does not exist; so a request for a name does
    what a request for its sanitised form does, the rows of other
    shortcodes than the sanitised name stay, and so does every row whose
    shortcode is not its own sanitised form, whatever the request. *)
Theorem C9_delete_looks_up_sanitised_name
    (req : DeleteRequest) (env : DeleteEnv) (w : World) :
  (forall name,
     authorization req = Some (app_username config, app_password config) ->
     arg_filename req = Some name -> name <> EmptyString ->
     del_select_ok env = true ->
     match find (has_url (secure_filename name)) (registry w) with
     | None =>
         delete_img config req env w
         = (w, Returns (Text "The image does not exist"))
     | Some image =>
         del_s3_ok env = true -> del_db_ok env = true ->
         delete_img config req env w
         = (set_registry
              (set_s3 w (delete (aws_s3_bucket_id config, database.filename image)
                           (s3 w)))
              (remove_first (has_url (secure_filename name)) (registry w)),
            Returns (deleted_response req))
     end) /\
  (forall name,
     arg_filename req = Some name -> name <> EmptyString ->
     secure_filename name <> EmptyString ->
     delete_img config req env w
     = delete_img config (set_arg_filename req (secure_filename name)) env w) /\
  (forall name,
     arg_filename req = Some name ->
     List.filter (fun r => negb (has_url (secure_filename name) r))
       (registry (fst (delete_img config req env w)))
     = List.filter (fun r => negb (has_url (secure_filename name) r)) (registry w)) /\
  (forall row,
     In row (registry w) ->
     secure_filename (database.url row) <> database.url row ->
     In row (registry (fst (delete_img config req env w)))).
Proof.
  split; [|split; [|split]].
  - intros name Hauth Hn Hne Hsel.
    rewrite (delete_img_authorised _ _ Hauth),
      (delete_img_inner_stages req env name w Hn Hne), Hsel.
    cbn [negb].
    destruct (find (has_url (secure_filename name)) (registry w)) as [image|];
      [|reflexivity].
    intros Hs Hd. now rewrite Hs, Hd.
  - intros name Hn Hne Hse.
    unfold delete_img, requires_auth. cbn [authorization set_arg_filename].
    destruct (authorization req) as [[u p]|]; [|reflexivity].
    destruct (negb (check_auth config u p)); [reflexivity|].
    rewrite (delete_img_inner_stages req env name w Hn Hne).
    rewrite (delete_img_inner_stages (set_arg_filename req (secure_filename name))
               env (secure_filename name) w eq_refl Hse).
    now rewrite secure_filename_idem.
  - intros name Hn.
    destruct (delete_img_registry req env w) as [->|[name' [Hn' ->]]];
      [reflexivity|].
    assert (name' = name) by congruence. subst name'.
    apply remove_first_keeps. intros r Hr. now apply negb_true_iff in Hr.
  - intros row Hin Hrow.
    destruct (delete_img_registry req env w) as [->|[name [Hn ->]]];
      [assumption|].
    assert (Hf : In row (List.filter (fun r => negb (has_url (secure_filename name) r))
                           (registry w))).
    { apply filter_In. split; [assumption|].
      apply negb_true_iff. unfold has_url.
      destruct (String.eqb (database.url row) (secure_filename name)) eqn:E;
        [|reflexivity].
      apply String.eqb_eq in E. exfalso. apply Hrow.
      rewrite E. apply secure_filename_idem. }
    rewrite <- (remove_first_keeps _ (has_url (secure_filename name))) in Hf
      by (intros r Hr; now apply negb_true_iff in Hr).
    apply filter_In in Hf. tauto.
Qed.

(** The handler keeps the shortcodes of the table unique. *)
Lemma delete_img_urls (req : DeleteRequest) (env : DeleteEnv) (w : World) :
  List.NoDup (map database.url (registry w)) ->
  List.NoDup (map database.url (registry (fst (delete_img config req env w)))).
Proof.
  intros H.
  destruct (delete_img_registry req env w) as [->|[name [_ ->]]];
    [assumption | now apply remove_first_urls].
Qed.

End Deletion.

(** *** The listing and the deletion on the sample requests *)

Lemma C7_witness :
  let w := Examples.after_upload Examples.cfg "6f1c" 1500000000 Examples.empty_world in
  let w' := set_registry w (Examples.later_row :: registry w) in
  exists l,
    get_images Examples.cfg true w = (w, Returns l) /\
    get_images Examples.cfg true w'
    = (w', Returns (to_model Examples.cfg Examples.later_row :: l)).
Proof.
  intros w w'.
  destruct (C7_listing_newest_first Examples.cfg w) as (l & Hl & _ & _ & _ & _ & Hnew).
  exists l. split; [exact Hl|].
  apply (Hnew Examples.later_row [] (registry w)).
  - reflexivity.
  - intros r [<-|[]]. vm_compute. reflexivity.
Defined.

(** C8, as stated, fails for a stored shortcode that is not its own
    sanitised form.  With the alphabet [_ab] an upload commits the
    shortcode [_ab]; the deletion of [_ab] looks up [ab], answers that the
    image does not exist and leaves the row and its object. *)
Lemma C8_stored_shortcode_not_deleted :
  let c := Examples.with_alphabet "_ab" in
  let w := Examples.after_upload c "6f1c" 1500000000 Examples.empty_world in
  map database.url (registry w) = ["_ab"] /\
  secure_filename "_ab" = "ab" /\
  delete_img c (Examples.delete_req "_ab") Examples.all_ok w
  = (w, Returns (Text "The image does not exist")).
Proof. vm_compute. repeat split. Qed.

Lemma C8_witness :
  let w := Examples.after_upload Examples.cfg "6f1c" 1500000000 Examples.empty_world in
  exists w2,
    delete_img Examples.cfg (Examples.delete_req "abc") Examples.all_ok w
    = (w2, Returns (Text "The file has been deleted")) /\
    s3 w2 !! ("pictures", "img/6f1c.jpg") = None /\
    find (has_url "abc") (registry w2) = None /\
    get_image Examples.cfg true (Some "abc") w2 = (w2, Returns (Text "404")).
Proof.
  intros w.
  destruct (C8_delete_by_sanitised_shortcode (unicode := ascii_tables) Examples.cfg
              (Examples.delete_req "abc") Examples.all_ok "abc" w
              eq_refl eq_refl ltac:(discriminate) eq_refl) as [_ H].
  destruct (H (Examples.cat_row "6f1c" 1500000000) eq_refl) as (_ & _ & H').
  destruct (H' eq_refl eq_refl) as (Hdel & Hs3 & Hreg).
  assert (Hu : List.NoDup (map database.url (registry w))).
  { vm_compute. constructor; [simpl; tauto | constructor]. }
  destruct (Hreg Hu) as [Hfind Hget].
  eexists. split; [exact Hdel|]. split; [exact Hs3|].
  split; [exact Hfind|]. exact (Hget eq_refl).
Defined.

Lemma C9_witness :
  let w1 := Examples.after_upload Examples.cfg "6f1c" 1500000000 Examples.empty_world in
  let c := Examples.with_alphabet "_ab" in
  let w := Examples.after_upload c "6f1c" 1500000000 Examples.empty_world in
  (secure_filename "../abc" = "abc" /\
   exists w2,
     delete_img Examples.cfg (Examples.delete_req "../abc") Examples.all_ok w1
     = (w2, Returns (Text "The file has been deleted")) /\
     registry w2 = []) /\
  delete_img c (Examples.delete_req "../_ab") Examples.all_ok w
  = delete_img c (set_arg_filename (Examples.delete_req "../_ab") "ab")
      Examples.all_ok w /\
  In (upload_row c (Examples.calm "6f1c" 1500000000) "6f1c.jpg" "_ab")
    (registry (fst (delete_img c (Examples.delete_req "../_ab") Examples.all_ok w))).
Proof.
  intros w1 c w. split; [split; [reflexivity|]|].
  - destruct (C9_delete_looks_up_sanitised_name (unicode := ascii_tables)
                Examples.cfg (Examples.delete_req "../abc") Examples.all_ok w1)
      as (H0 & _).
    specialize (H0 "../abc" eq_refl eq_refl ltac:(discriminate) eq_refl).
    vm_compute in H0. specialize (H0 eq_refl eq_refl).
    eexists. split; [vm_compute; exact H0 | reflexivity].
  - destruct (C9_delete_looks_up_sanitised_name (unicode := ascii_tables) c
                (Examples.delete_req "../_ab") Examples.all_ok w)
      as (_ & H1 & _ & H3).
    split.
    + apply (H1 "../_ab").
      * reflexivity.
      * discriminate.
      * vm_compute. discriminate.
    + apply H3.
      * vm_compute. left. reflexivity.
      * vm_compute. discriminate.
Defined.

(** * Further properties of the handlers *)

(** ** Extensions *)

Lemma forallb_app (p : ascii -> bool) (a b : string) :
  PyStr.forallb p (a ++ b) = PyStr.forallb p a && PyStr.forallb p b.
Proof.
  induction a as [|c a IH]; simpl; [reflexivity|].
  now rewrite IH, andb_assoc.
Qed.

Section ExtensionShape.

Context {unicode : Unicode}.

Lemma strip_extenstion_shape (filename ext : string) :
  strip_extenstion filename = Some ext ->
  PyStr.contains "." ext = false /\
  PyStr.forallb (fun c => negb (PyStr.is_upper c)) ext = true.
Proof.
  intros H. apply strip_extenstion_Some in H as [stem [Hl Hd]].
  split; [exact Hd|].
  pose proof (str_lower_no_capital filename) as Hu.
  rewrite Hl, forallb_app in Hu. apply andb_prop in Hu as [_ Hu].
  simpl in Hu. exact Hu.
Qed.

(** The extension does not depend on the case of the name; it has no dot
    and no capital letter. *)
Theorem strip_extenstion_case_insensitive (filename : string) :
  strip_extenstion (str_lower filename) = strip_extenstion filename /\
  (forall ext,
     strip_extenstion filename = Some ext ->
     PyStr.contains "." ext = false /\
     PyStr.forallb (fun c => negb (PyStr.is_upper c)) ext = true).
Proof.
  split.
  - unfold strip_extenstion.
    now rewrite str_lower_dot, str_lower_idem.
  - apply strip_extenstion_shape.
Qed.

(** A name that ends with a dot has the empty extension, not none. *)
Theorem strip_extenstion_trailing_dot (stem : string) :
  strip_extenstion (stem ++ ".") = Some EmptyString.
Proof.
  apply strip_extenstion_Some. exists (str_lower stem).
  split; [|reflexivity]. apply str_lower_trailing_dot.
Qed.

End ExtensionShape.

Section ExtensionList.

Context {unicode : Unicode}.
Variable config : Config.

(** A name is acceptable exactly when what follows the last dot of its
    lowered form is an entry of the list. *)
Theorem is_acceptable_filename_iff (filename : string) :
  is_acceptable_filename config filename = true <->
  exists stem ext,
    str_lower filename = stem ++ String "." ext /\
    PyStr.contains "." ext = false /\
    In ext (file_extentions config).
Proof.
  unfold is_acceptable_filename. rewrite py_in_true. split.
  - intros [ext [He Hin]].
    apply strip_extenstion_Some in He as [stem [Hl Hd]]. eauto.
  - intros (stem & ext & Hl & Hd & Hin). exists ext. split; [|exact Hin].
    apply strip_extenstion_Some. eauto.
Qed.

(** Entries written with a capital letter or with a dot accept no name. *)
Theorem capital_or_dotted_entries_accept_nothing (filename : string) :
  (forall ext, In ext (file_extentions config) ->
     PyStr.contains "." ext = true
     \/ PyStr.forallb (fun c => negb (PyStr.is_upper c)) ext = false) ->
  is_acceptable_filename config filename = false.
Proof.
  intros H. destruct (is_acceptable_filename config filename) eqn:E;
    [|reflexivity].
  unfold is_acceptable_filename in E.
  apply py_in_true in E as [ext [He Hin]].
  destruct (strip_extenstion_shape filename ext He) as [Hd Hu].
  destruct (H ext Hin); congruence.
Qed.


End ExtensionList.

Lemma capital_or_dotted_entries_witness :
  is_acceptable_filename Samples.shouting_cfg "cat.PNG" = false.
Proof.
  apply (capital_or_dotted_entries_accept_nothing (unicode := ascii_tables) Samples.shouting_cfg "cat.PNG").
  intros ext [<-|[<-|[]]].
  - right. reflexivity.
  - left. reflexivity.
Defined.


(** ** Shortcodes *)

Lemma get_contains (s : string) (n : nat) (c : ascii) :
  String.get n s = Some c -> PyStr.contains c s = true.
Proof.
  revert n. induction s as [|d s IH]; intros n; simpl; [discriminate|].
  destruct n as [|n].
  - intros H. injection H as ->. now rewrite Ascii.eqb_refl.
  - intros H. rewrite (IH n H). apply orb_true_r.
Qed.

Lemma get_in_range (s : string) (n : nat) :
  (n < String.length s)%nat -> exists c, String.get n s = Some c.
Proof.
  revert n. induction s as [|d s IH]; intros n; simpl; [lia|].
  destruct n as [|n]; [eauto|]. intros H. apply IH. lia.
Qed.

Section Shortcodes.

Context {unicode : Unicode}.
Variable config : Config.

Lemma generate_random_string_returns (n : nat) (rs : list nat) (s : string) :
  generate_random_string config n rs = Returns s ->
  String.length s = n /\
  PyStr.forallb (fun c => PyStr.contains c (url_characters config)) s = true.
Proof.
  revert rs s. induction n as [|n IH]; intros rs s; simpl.
  - intros H. injection H as <-. auto.
  - unfold random_choice.
    destruct (String.get _ (url_characters config)) as [c|] eqn:G; [|discriminate].
    destruct (generate_random_string config n (tl rs)) as [t| |] eqn:E;
      try discriminate.
    intros H. injection H as <-. destruct (IH _ _ E) as [Hl Hf].
    simpl. now rewrite Hl, Hf, (get_contains _ _ _ G).
Qed.

(** With a non-empty alphabet a code of the asked length comes out, made
    of characters of the alphabet. *)
Theorem generate_random_string_total (n : nat) (rs : list nat) :
  url_characters config <> EmptyString ->
  exists s,
    generate_random_string config n rs = Returns s /\
    String.length s = n /\
    PyStr.forallb (fun c => PyStr.contains c (url_characters config)) s = true.
Proof.
  intros Ha.
  assert (T : forall m qs, exists s, generate_random_string config m qs = Returns s).
  { induction m as [|m IH]; intros qs; simpl; [eauto|].
    unfold random_choice.
    destruct (get_in_range (url_characters config)
                (hd 0%nat qs mod String.length (url_characters config))) as [c ->].
    - apply Nat.mod_upper_bound.
      destruct (url_characters config); [contradiction | discriminate].
    - destruct (IH (tl qs)) as [t ->]. eauto. }
  destruct (T n rs) as [s Hs]. exists s. split; [exact Hs|].
  now apply generate_random_string_returns with (rs := rs).
Qed.

(** With an empty alphabet every code of positive length raises. *)
Theorem generate_random_string_empty_alphabet (n : nat) (rs : list nat) :
  url_characters config = EmptyString -> n <> 0%nat ->
  generate_random_string config n rs = Raises IndexError.
Proof.
  intros Ha Hn. destruct n as [|n]; [contradiction|].
  simpl. unfold random_choice. rewrite Ha. simpl.
  now destruct (hd 0%nat rs mod 0)%nat.
Qed.

Lemma new_shortcode_returns (ok : bool) (ds : list (list nat)) (w w' : World)
    (c : string) :
  new_shortcode config ok ds w = (w', Returns c) ->
  ok = true /\
  exists d, In d ds
            /\ generate_random_string config (default_url_length config) d
               = Returns c.
Proof.
  induction ds as [|d ds IH]; simpl; [discriminate|].
  unfold bind, lift, select_where_url.
  destruct (generate_random_string config _ d) as [u| |] eqn:G; simpl;
    try discriminate.
  destruct ok; simpl; [|discriminate].
  destruct (exists_ _).
  - intros H. destruct (IH H) as [_ [d' [Hin Hg]]]. eauto.
  - unfold ret. intros H. injection H as _ <-. eauto.
Qed.

(** The code that the loop returns is held by no row, has the configured
    length and is made of the alphabet; the loop changes nothing. *)
Theorem new_shortcode_free_and_well_formed
    (ok : bool) (ds : list (list nat)) (w w' : World) (c : string) :
  new_shortcode config ok ds w = (w', Returns c) ->
  w' = w /\
  (forall row, In row (registry w) -> database.url row <> c) /\
  String.length c = default_url_length config /\
  PyStr.forallb (fun a => PyStr.contains a (url_characters config)) c = true.
Proof.
  intros H. split; [|split].
  - pose proof (new_shortcode_world config ok ds w) as Hw.
    now rewrite H in Hw.
  - intros row Hin Hu. pose proof (new_shortcode_fresh config _ _ _ _ _ H) as Hf.
    assert (X : existsb (has_url c) (registry w) = true).
    { apply existsb_exists. exists row. split; [exact Hin|].
      unfold has_url. rewrite Hu. apply String.eqb_refl. }
    congruence.
  - destruct (new_shortcode_returns _ _ _ _ _ H) as [_ [d [_ Hg]]].
    now apply generate_random_string_returns with (rs := d).
Qed.

(** When every drawn code is taken the loop has not ended with the draws:
    it never gives up by itself. *)
Theorem new_shortcode_all_taken (ds : list (list nat)) (w : World) :
  Forall (fun d => exists c,
            generate_random_string config (default_url_length config) d
            = Returns c
            /\ existsb (has_url c) (registry w) = true) ds ->
  new_shortcode config true ds w = (w, OutOfDraws).
Proof.
  induction 1 as [|d ds [c [Hg Hx]] _ IH]; simpl; [reflexivity|].
  unfold bind, lift, select_where_url. rewrite Hg.
  now rewrite exists_filter, Hx.
Qed.

(** With an empty alphabet and a positive length an accepted upload stops
    at the first draw: the caller gets the generic message and nothing is
    staged, stored or committed. *)
Theorem upload_img_empty_alphabet
    (req : UploadRequest) (env : UploadEnv) (file : FileStorage) (w : World) :
  accepted config req file ->
  url_characters config = EmptyString ->
  default_url_length config <> 0%nat ->
  draws env <> [] ->
  upload_img config req env w = (w, Returns (Text generic_error_message)).
Proof.
  intros Ha Hal Hlen Hd. rewrite (upload_img_stages _ _ _ _ _ Ha).
  destruct (draws env) as [|d ds]; [contradiction|].
  simpl. unfold bind, lift.
  now rewrite (generate_random_string_empty_alphabet _ d Hal Hlen).
Qed.

End Shortcodes.

Lemma generate_random_string_total_witness :
  exists s,
    generate_random_string Examples.cfg 3 [4; 5; 6]%nat = Returns s /\
    String.length s = 3%nat /\
    PyStr.forallb (fun c => PyStr.contains c "abc") s = true.
Proof.
  apply (generate_random_string_total Examples.cfg 3 [4; 5; 6]%nat).
  discriminate.
Defined.

Lemma generate_random_string_empty_alphabet_witness :
  generate_random_string (Examples.with_alphabet "") 3 [4; 5; 6]%nat
  = Raises IndexError.
Proof.
  apply (generate_random_string_empty_alphabet (Examples.with_alphabet "") 3).
  - reflexivity.
  - discriminate.
Defined.

Lemma new_shortcode_first_free_witness :
  let w := Examples.after_upload Examples.cfg "6f1c" 1500000000 Examples.empty_world in
  new_shortcode Examples.cfg true
    ([[0; 1; 2]%nat] ++ [1; 1; 1]%nat :: [[2; 0; 2]%nat])%list w
  = (w, Returns "bbb").
Proof.
  intros w.
  apply (new_shortcode_first_free Examples.cfg [[0; 1; 2]%nat] [1; 1; 1]%nat
           [[2; 0; 2]%nat] "bbb" w).
  - constructor; [|constructor]. exists "abc". split; reflexivity.
  - reflexivity.
  - reflexivity.
Defined.

Lemma new_shortcode_free_and_well_formed_witness :
  let w := Examples.after_upload Examples.cfg "6f1c" 1500000000 Examples.empty_world in
  w = w /\
  (forall row, In row (registry w) -> database.url row <> "bbb") /\
  String.length "bbb" = 3%nat /\
  PyStr.forallb (fun a => PyStr.contains a "abc") "bbb" = true.
Proof.
  intros w.
  apply (new_shortcode_free_and_well_formed Examples.cfg true
           [[0; 1; 2]; [1; 1; 1]]%nat w w "bbb").
  reflexivity.
Defined.

Lemma new_shortcode_all_taken_witness :
  let w := Examples.after_upload Examples.cfg "6f1c" 1500000000 Examples.empty_world in
  new_shortcode Examples.cfg true [[0; 1; 2]; [3; 4; 5]]%nat w = (w, OutOfDraws).
Proof.
  intros w.
  apply (new_shortcode_all_taken Examples.cfg [[0; 1; 2]; [3; 4; 5]]%nat w).
  constructor; [|constructor; [|constructor]]; exists "abc"; split; reflexivity.
Defined.

Lemma upload_img_empty_alphabet_witness :
  upload_img (Examples.with_alphabet "") Examples.post_cat
    (Examples.calm "6f1c" 7) Examples.empty_world
  = (Examples.empty_world, Returns (Text generic_error_message)).
Proof.
  apply (upload_img_empty_alphabet (unicode := ascii_tables) (Examples.with_alphabet "") Examples.post_cat
           (Examples.calm "6f1c" 7) Examples.cat).
  - repeat split. discriminate.
  - reflexivity.
  - discriminate.
  - discriminate.
Defined.

(** ** What an upload leaves behind *)

Lemma find_app_fresh (c : string) (l : list database.Image) (row : database.Image) :
  existsb (has_url c) l = false -> database.url row = c ->
  find (has_url c) (l ++ [row]) = Some row.
Proof.
  intros Hl Hr. induction l as [|r l IH]; simpl in *.
  - unfold has_url. now rewrite Hr, String.eqb_refl.
  - apply orb_false_elim in Hl as [Hr' Hl]. rewrite Hr'. auto.
Qed.

Lemma remove_first_app_fresh (c : string) (l : list database.Image)
    (row : database.Image) :
  existsb (has_url c) l = false -> database.url row = c ->
  remove_first (has_url c) (l ++ [row]) = l.
Proof.
  intros Hl Hr. induction l as [|r l IH]; simpl in *.
  - unfold has_url. now rewrite Hr, String.eqb_refl.
  - apply orb_false_elim in Hl as [Hr' Hl]. rewrite Hr'. now rewrite IH.
Qed.

Lemma with_others_footprint (env : UploadEnv) (w : World) :
  (exists l, registry (with_others env w) = (registry w ++ l)%list) /\
  s3 (with_others env w) = s3 w /\
  disk (with_others env w) = disk w.
Proof.
  unfold with_others, commit_others. cbn [fst].
  generalize (concurrent env). intros rows. revert w.
  induction rows as [|row rows IH]; intros w; simpl.
  - split; [exists []; now rewrite app_nil_r | auto].
  - destruct (IH (fst (Image_create true row w))) as ([l Hl] & Hs & Hd).
    rewrite Hl, Hs, Hd. unfold Image_create. cbn [negb].
    destruct (existsb _ (registry w)); cbn [fst registry s3 disk set_registry].
    + eauto.
    + split; [|auto]. exists ([row] ++ l)%list. now rewrite app_assoc.
Qed.

Section UploadEffects.

Context {unicode : Unicode}.
Variable config : Config.

(** The remote key of an upload. *)
Lemma upload_row_filename (env : UploadEnv) (name c : string) :
  database.filename (upload_row config env name c)
  = PyStr.path_join (aws_s3_bucket_path config) name.
Proof. reflexivity. Qed.

(** The world after a [try] block that ran to its end. *)
Lemma upload_try_success (env : UploadEnv) (file : FileStorage)
    (w w1 w' : World) (c : string) (resp : Response) :
  new_shortcode config (select_ok env) (draws env) w = (w1, Returns c) ->
  upload_try config env file (uuid4 env) (new_filename_of env file) w
  = (w', Returns resp) ->
  existsb (has_url c) (registry (with_others env w)) = false /\
  resp = Text (app_path config ++ "/" ++ c ++ ".png") /\
  registry w'
  = (registry (with_others env w)
     ++ [upload_row config env (new_filename_of env file) c])%list /\
  s3 w'
  = <[(aws_s3_bucket_id config,
       PyStr.path_join (aws_s3_bucket_path config) (new_filename_of env file))
      := fs_content file]> (s3 w) /\
  disk w' !! staged_path config (new_filename_of env file) = None.
Proof.
  intros Hc H. rewrite upload_try_stages, Hc in H. unfold upload_stages in H.
  destruct (with_others_footprint env w) as (_ & Hs & _).
  destruct (save_ok env); cbn [negb] in H; [|discriminate].
  destruct (put_ok env); cbn [negb] in H; [|discriminate].
  destruct (create_ok env); cbn [negb] in H; [|discriminate].
  destruct (existsb (has_url c) (registry (with_others env w))); [discriminate|].
  destruct (remove_ok env); cbn [negb] in H; [|discriminate].
  injection H as <- <-.
  cbn [registry s3 disk set_registry set_s3 set_disk]. rewrite Hs.
  repeat split. apply lookup_delete_eq.
Qed.

(** Upload, then retrieval: the link that a successful upload returns,
    with or without its [.png], resolves to the page of the object that
    the upload stored, and the store holds the bytes of the file there. *)
Theorem upload_then_resolve (env : UploadEnv) (file : FileStorage)
    (w w1 w' : World) (c : string) (resp : Response) :
  new_shortcode config (select_ok env) (draws env) w = (w1, Returns c) ->
  upload_try config env file (uuid4 env) (new_filename_of env file) w
  = (w', Returns resp) ->
  PyStr.contains "." c = false ->
  let key := PyStr.path_join (aws_s3_bucket_path config) (new_filename_of env file) in
  let page :=
    Render "display_image.html"
      (Some (models.TemplateDisplayImage (app_path config)
               ("http://" ++ aws_s3_endpoint config ++ "/"
                ++ aws_s3_bucket_id config ++ "/" ++ key))) in
  resp = Text (app_path config ++ "/" ++ c ++ ".png") /\
  get_image config true (Some (c ++ ".png")) w' = (w', Returns page) /\
  get_image config true (Some c) w' = (w', Returns page) /\
  s3 w' !! (aws_s3_bucket_id config, key) = Some (fs_content file).
Proof.
  intros Hc H Hdot key page.
  destruct (upload_try_success _ _ _ _ _ _ _ Hc H) as (Hx & Hr & Hreg & Hs3 & _).
  assert (G : get_image config true (Some c) w' = (w', Returns page)).
  { rewrite (get_image_lookup config c w' Hdot), Hreg.
    now rewrite (find_app_fresh c _ (upload_row config env (new_filename_of env file) c) Hx eq_refl). }
  split; [exact Hr|]. split; [|split; [exact G|]].
  - rewrite get_image_first_field.
    change (c ++ ".png") with (c ++ String "." "png").
    rewrite PyStrFacts.split_head_extend, <- get_image_first_field. exact G.
  - rewrite Hs3. apply lookup_insert_eq.
Qed.

(** Upload, then listing: the row of a successful upload is in the
    listing, under its shortcode and with the time of the upload. *)
Theorem upload_then_listed (env : UploadEnv) (file : FileStorage)
    (w w1 w' : World) (c : string) (resp : Response) :
  new_shortcode config (select_ok env) (draws env) w = (w1, Returns c) ->
  upload_try config env file (uuid4 env) (new_filename_of env file) w
  = (w', Returns resp) ->
  exists l image,
    get_images config true w' = (w', Returns l) /\
    In image l /\
    models.shortcode image = c /\
    models.timestamp image = time_now env /\
    (length l = length (registry (with_others env w)) + 1)%nat.
Proof.
  intros Hc H.
  destruct (upload_try_success _ _ _ _ _ _ _ Hc H) as (_ & _ & Hreg & _).
  exists (sorted (fun image => - models.timestamp image)
            (map (to_model config) (registry w'))),
         (to_model config (upload_row config env (new_filename_of env file) c)).
  split; [reflexivity|]. split; [|split; [reflexivity|split; [reflexivity|]]].
  - eapply Permutation_in; [apply sorted_perm|].
    apply in_map. rewrite Hreg. apply in_or_app. right. now left.
  - rewrite <- (Permutation_length (sorted_perm _ _)).
    now rewrite length_map, Hreg, length_app.
Qed.

(** Upload, then deletion of the returned shortcode: the row and the
    object of the upload are gone again and the table is what it was
    before the commit. *)
Theorem upload_then_delete (env : UploadEnv) (file : FileStorage)
    (w w1 w' : World) (c : string) (resp : Response)
    (req : DeleteRequest) (denv : DeleteEnv) :
  new_shortcode config (select_ok env) (draws env) w = (w1, Returns c) ->
  upload_try config env file (uuid4 env) (new_filename_of env file) w
  = (w', Returns resp) ->
  c <> EmptyString -> secure_filename c = c ->
  authorization req = Some (app_username config, app_password config) ->
  arg_filename req = Some c ->
  del_select_ok denv = true -> del_s3_ok denv = true -> del_db_ok denv = true ->
  exists w'',
    delete_img config req denv w' = (w'', Returns (deleted_response req)) /\
    registry w'' = registry (with_others env w) /\
    s3 w'' !! (aws_s3_bucket_id config,
               PyStr.path_join (aws_s3_bucket_path config) (new_filename_of env file))
    = None /\
    disk w'' = disk w'.
Proof.
  intros Hc H Hne Hsec Hauth Hn Hsel Hs3 Hdb.
  destruct (upload_try_success _ _ _ _ _ _ _ Hc H) as (Hx & _ & Hreg & _ & _).
  rewrite (delete_img_authorised config _ _ Hauth),
    (delete_img_inner_stages config req denv c w' Hn Hne), Hsel, Hs3, Hdb, Hsec, Hreg.
  cbn [negb].
  rewrite (find_app_fresh c _ (upload_row config env (new_filename_of env file) c) Hx eq_refl).
  eexists. split; [reflexivity|].
  cbn [registry s3 disk set_registry set_s3].
  rewrite (remove_first_app_fresh c _ (upload_row config env (new_filename_of env file) c) Hx eq_refl),
    upload_row_filename.
  split; [reflexivity|]. split; [apply lookup_delete_eq | reflexivity].
Qed.

End UploadEffects.

Lemma upload_then_resolve_witness :
  let env := Examples.calm "6f1c" 1500000000 in
  let w' := Examples.after_upload Examples.cfg "6f1c" 1500000000 Examples.empty_world in
  let page :=
    Render "display_image.html"
      (Some (models.TemplateDisplayImage "http://img.example"
               "http://s3.example/pictures/img/6f1c.jpg")) in
  Text "http://img.example/abc.png" = Text "http://img.example/abc.png" /\
  get_image Examples.cfg true (Some "abc.png") w' = (w', Returns page) /\
  get_image Examples.cfg true (Some "abc") w' = (w', Returns page) /\
  s3 w' !! ("pictures", "img/6f1c.jpg") = Some "JFIF".
Proof.
  intros env w' page.
  apply (upload_then_resolve (unicode := ascii_tables) Examples.cfg env Examples.cat Examples.empty_world
           Examples.empty_world w' "abc" (Text "http://img.example/abc.png")).
  - reflexivity.
  - vm_compute. reflexivity.
  - reflexivity.
Defined.

Lemma upload_then_listed_witness :
  let env := Examples.calm "6f1c" 1500000000 in
  let w' := Examples.after_upload Examples.cfg "6f1c" 1500000000 Examples.empty_world in
  exists l image,
    get_images Examples.cfg true w' = (w', Returns l) /\
    In image l /\
    models.shortcode image = "abc" /\
    models.timestamp image = 1500000000 /\
    (length l = 0 + 1)%nat.
Proof.
  intros env w'.
  apply (upload_then_listed (unicode := ascii_tables) Examples.cfg env Examples.cat Examples.empty_world
           Examples.empty_world w' "abc" (Text "http://img.example/abc.png")).
  - reflexivity.
  - vm_compute. reflexivity.
Defined.

Lemma upload_then_delete_witness :
  let w' := Examples.after_upload Examples.cfg "6f1c" 1500000000 Examples.empty_world in
  exists w'',
    delete_img Examples.cfg (Examples.delete_req "abc") Examples.all_ok w'
    = (w'', Returns (Text "The file has been deleted")) /\
    registry w'' = [] /\
    s3 w'' !! ("pictures", "img/6f1c.jpg") = None /\
    disk w'' = disk w'.
Proof.
  intros w'.
  apply (upload_then_delete (unicode := ascii_tables) Examples.cfg (Examples.calm "6f1c" 1500000000)
           Examples.cat Examples.empty_world Examples.empty_world w' "abc"
           (Text "http://img.example/abc.png")
           (Examples.delete_req "abc") Examples.all_ok).
  - reflexivity.
  - vm_compute. reflexivity.
  - discriminate.
  - reflexivity.
  - reflexivity.
  - reflexivity.
  - reflexivity.
  - reflexivity.
  - reflexivity.
Defined.

(** ** What a failed upload leaves behind *)

Section UploadFailures.

Context {unicode : Unicode}.
Variable config : Config.


(** When only the removal of the staged file fails, the upload is
    complete (the row is committed and its object stored) and yet the
    caller gets the generic error message. *)
Theorem error_reported_after_commit
    (req : UploadRequest) (env : UploadEnv) (file : FileStorage)
    (w w1 : World) (c : string) :
  accepted config req file ->
  new_shortcode config (select_ok env) (draws env) w = (w1, Returns c) ->
  save_ok env = true -> put_ok env = true -> create_ok env = true ->
  existsb (has_url c) (registry (with_others env w)) = false ->
  remove_ok env = false ->
  exists w',
    upload_img config req env w = (w', Returns (Text generic_error_message)) /\
    registry w'
    = (registry (with_others env w)
       ++ [upload_row config env (new_filename_of env file) c])%list /\
    s3 w' !! (aws_s3_bucket_id config,
              PyStr.path_join (aws_s3_bucket_path config) (new_filename_of env file))
    = Some (fs_content file) /\
    disk w' !! staged_path config (new_filename_of env file)
    = Some (fs_content file).
Proof.
  intros Ha Hc Hs Hp Hd Hx Hr. rewrite (upload_img_stages _ _ _ _ _ Ha), Hc.
  unfold upload_stages. rewrite Hs, Hp, Hd, Hx, Hr. cbn [negb].
  eexists. split; [reflexivity|].
  cbn [registry s3 disk set_registry set_s3 set_disk].
  split; [reflexivity|]. split; apply lookup_insert_eq.
Qed.

(** An upload only adds: the rows that were there stay where they are,
    no object of the store disappears, and no file of the disk other than
    the staged one changes. *)
Theorem upload_img_only_adds
    (req : UploadRequest) (env : UploadEnv) (w : World) :
  (exists l, registry (fst (upload_img config req env w)) = (registry w ++ l)%list) /\
  (forall k, is_Some (s3 w !! k) ->
             is_Some (s3 (fst (upload_img config req env w)) !! k)) /\
  (forall file p,
     files_file req = Some file ->
     p <> staged_path config (new_filename_of env file) ->
     disk (fst (upload_img config req env w)) !! p = disk w !! p).
Proof.
  destruct (accepted_dec config req) as [[file Ha]|Hn].
  2:{ rewrite (upload_img_not_accepted config req env w Hn).
      split; [exists []; now rewrite app_nil_r | auto]. }
  rewrite (upload_img_stages _ _ _ _ _ Ha).
  destruct (with_others_footprint env w) as ([l Hl] & Hs & Hd).
  assert (Hfile : forall file', files_file req = Some file' -> file' = file).
  { destruct Ha as (_ & Hf & _). intros file' H. congruence. }
  destruct (new_shortcode config (select_ok env) (draws env) w) as [w1 [c|e|]].
  2,3: split; [exists []; now rewrite app_nil_r | auto].
  unfold upload_stages.
  destruct (save_ok env); cbn [negb];
    [|cbn [fst]; rewrite Hl, Hs, Hd; eauto].
  destruct (put_ok env); cbn [negb].
  2:{ cbn [fst registry s3 disk set_disk]. rewrite Hl, Hs, Hd.
      split; [eauto|]. split; [auto|].
      intros file' p Hf Hp. rewrite (Hfile _ Hf) in Hp.
      now rewrite lookup_insert_ne. }
  assert (Hkeep : forall k k' (v : string),
            is_Some (s3 w !! k) -> is_Some (<[k' := v]> (s3 w) !! k)).
  { intros k k' v Hk. destruct (decide (k' = k)) as [->|Hne].
    - rewrite lookup_insert_eq. eauto.
    - now rewrite lookup_insert_ne. }
  destruct (create_ok env); cbn [negb].
  2:{ cbn [fst registry s3 disk set_disk set_s3]. rewrite Hl, Hs, Hd.
      split; [eauto|]. split; [intros k Hk; now apply Hkeep|].
      intros file' p Hf Hp. rewrite (Hfile _ Hf) in Hp.
      now rewrite lookup_insert_ne. }
  destruct (existsb (has_url c) (registry (with_others env w))).
  { cbn [fst registry s3 disk set_disk set_s3]. rewrite Hl, Hs, Hd.
    split; [eauto|]. split; [intros k Hk; now apply Hkeep|].
    intros file' p Hf Hp. rewrite (Hfile _ Hf) in Hp.
    now rewrite lookup_insert_ne. }
  destruct (remove_ok env); cbn [negb];
    cbn [fst registry s3 disk set_disk set_s3 set_registry];
    rewrite Hl, Hs, Hd.
  - split; [eexists; now rewrite <- app_assoc|].
    split; [intros k Hk; now apply Hkeep|].
    intros file' p Hf Hp. rewrite (Hfile _ Hf) in Hp.
    rewrite lookup_delete_ne by congruence. now rewrite lookup_insert_ne.
  - split; [eexists; now rewrite <- app_assoc|].
    split; [intros k Hk; now apply Hkeep|].
    intros file' p Hf Hp. rewrite (Hfile _ Hf) in Hp.
    now rewrite lookup_insert_ne.
Qed.

End UploadFailures.


Lemma error_reported_after_commit_witness :
  exists w',
    upload_img Examples.cfg Examples.post_cat Samples.sticky Examples.empty_world
    = (w', Returns (Text generic_error_message)) /\
    registry w' = [upload_row Examples.cfg Samples.sticky "6f1c.jpg" "abc"] /\
    s3 w' !! ("pictures", "img/6f1c.jpg") = Some "JFIF" /\
    disk w' !! "uploads/6f1c.jpg" = Some "JFIF".
Proof.
  apply (error_reported_after_commit (unicode := ascii_tables) Examples.cfg Examples.post_cat
           Samples.sticky Examples.cat Examples.empty_world
           Examples.empty_world "abc").
  - exact accepted_post_cat.
  - reflexivity.
  - reflexivity.
  - reflexivity.
  - reflexivity.
  - reflexivity.
  - reflexivity.
Defined.

(** ** The remote upload *)

(** [make_s3_upload] stores the bytes of the staged file under the bucket
    and the joined key and touches nothing else; without the staged file
    it raises before the store is reached. *)
Theorem make_s3_upload_stores_staged_file
    (bucket dir key path : string) (w : World) :
  (forall ok, disk w !! path = None ->
     make_s3_upload ok bucket dir key path w = (w, Raises OSError)) /\
  (forall content, disk w !! path = Some content ->
     make_s3_upload false bucket dir key path w = (w, Raises S3Error) /\
     exists w',
       make_s3_upload true bucket dir key path w = (w', Returns tt) /\
       s3 w' !! (bucket, PyStr.path_join dir key) = Some content /\
       (forall k, k <> (bucket, PyStr.path_join dir key) -> s3 w' !! k = s3 w !! k) /\
       registry w' = registry w /\ disk w' = disk w).
Proof.
  split.
  - intros ok H. unfold make_s3_upload. now rewrite H.
  - intros content H. unfold make_s3_upload, s3_upload. rewrite H.
    split; [reflexivity|]. eexists. split; [reflexivity|].
    cbn [registry s3 disk set_s3]. split; [apply lookup_insert_eq|].
    split; [|auto]. intros k Hk. now rewrite lookup_insert_ne.
Qed.

(** ** Deletion: credentials and footprint *)

Lemma remove_first_length (p : database.Image -> bool) (l : list database.Image) :
  (length l <= S (length (remove_first p l)))%nat.
Proof.
  induction l as [|r l IH]; simpl; [lia|].
  destruct (p r); simpl; lia.
Qed.

Lemma find_unique (l : list database.Image) (row : database.Image) :
  List.NoDup (map database.url l) -> In row l ->
  find (has_url (database.url row)) l = Some row.
Proof.
  induction l as [|r l IH]; simpl; [tauto|].
  intros Hnd Hin. inversion Hnd as [|x xs Hnotin Hnd']; subst.
  unfold has_url at 1. destruct Hin as [->|Hin].
  - now rewrite String.eqb_refl.
  - destruct (String.eqb (database.url r) (database.url row)) eqn:E; [|auto].
    apply String.eqb_eq in E. exfalso. apply Hnotin. rewrite E.
    now apply in_map.
Qed.

Lemma append_cancel_l (a x y : string) : a ++ x = a ++ y -> x = y.
Proof.
  induction a as [|c a IH]; simpl; [auto|].
  intros H. injection H as H. auto.
Qed.

Section DeletionGuards.

Context {unicode : Unicode}.
Variable config : Config.

Lemma check_auth_true (username password : string) :
  check_auth config username password = true <->
  username = app_username config /\ password = app_password config.
Proof.
  unfold check_auth. rewrite andb_true_iff, !String.eqb_eq. tauto.
Qed.

(** Without the configured pair of credentials the handler is not
    reached: the answer is the challenge and nothing changes. *)
Theorem delete_img_unauthorised
    (req : DeleteRequest) (env : DeleteEnv) (w : World) :
  authorization req <> Some (app_username config, app_password config) ->
  delete_img config req env w = (w, Returns Unauthorized).
Proof.
  intros H. unfold delete_img, requires_auth.
  destruct (authorization req) as [[u p]|]; [|reflexivity].
  destruct (check_auth config u p) eqn:E; [|reflexivity].
  apply check_auth_true in E as [-> ->]. contradiction.
Qed.

(** A deletion changes the world only for a caller with the credentials
    who names, after sanitising, the shortcode of a row, and only when the
    table and the object store answer. *)
Theorem delete_img_changes_only_found_rows
    (req : DeleteRequest) (env : DeleteEnv) (w : World) :
  fst (delete_img config req env w) <> w ->
  authorization req = Some (app_username config, app_password config) /\
  exists name row,
    arg_filename req = Some name /\ name <> EmptyString /\
    find (has_url (secure_filename name)) (registry w) = Some row /\
    del_select_ok env = true /\ del_s3_ok env = true.
Proof.
  intros H.
  assert (Hauth : authorization req
                  = Some (app_username config, app_password config)).
  { unfold delete_img, requires_auth in H.
    destruct (authorization req) as [[u p]|]; [|now contradiction H].
    destruct (check_auth config u p) eqn:E; [|now contradiction H].
    apply check_auth_true in E as [-> ->]. reflexivity. }
  split; [exact Hauth|].
  rewrite (delete_img_authorised config _ _ Hauth) in H.
  destruct (arg_filename req) as [name|] eqn:Hn;
    [|unfold delete_img_inner in H; rewrite Hn in H; now contradiction H].
  destruct (String.eqb name EmptyString) eqn:Hne.
  { apply String.eqb_eq in Hne. subst name.
    unfold delete_img_inner in H. rewrite Hn in H. now contradiction H. }
  apply String.eqb_neq in Hne.
  rewrite (delete_img_inner_stages config req env name w Hn Hne) in H.
  destruct (del_select_ok env); cbn [negb] in H; [|now contradiction H].
  destruct (find (has_url (secure_filename name)) (registry w)) as [row|] eqn:F;
    [|now contradiction H].
  destruct (del_s3_ok env); cbn [negb] in H; [|now contradiction H].
  exists name, row. repeat split; auto.
Qed.

(** A deletion removes at most one row, never touches the disk, deletes
    from the configured bucket only, and adds no object. *)
Theorem delete_img_footprint
    (req : DeleteRequest) (env : DeleteEnv) (w : World) :
  disk (fst (delete_img config req env w)) = disk w /\
  (length (registry w) <= S (length (registry (fst (delete_img config req env w)))))%nat /\
  (forall b k, b <> aws_s3_bucket_id config ->
     s3 (fst (delete_img config req env w)) !! (b, k) = s3 w !! (b, k)) /\
  (forall k v, s3 (fst (delete_img config req env w)) !! k = Some v ->
     s3 w !! k = Some v).
Proof.
  assert (Hsame : disk w = disk w /\
            (length (registry w) <= S (length (registry w)))%nat /\
            (forall b k, b <> aws_s3_bucket_id config ->
               s3 w !! (b, k) = s3 w !! (b, k)) /\
            (forall k v, s3 w !! k = Some v -> s3 w !! k = Some v))
    by (repeat split; auto).
  unfold delete_img, requires_auth.
  destruct (authorization req) as [[u p]|]; [|exact Hsame].
  destruct (negb (check_auth config u p)); [exact Hsame|].
  destruct (arg_filename req) as [name|] eqn:Hn;
    [|unfold delete_img_inner; rewrite Hn; exact Hsame].
  destruct (String.eqb name EmptyString) eqn:Hne.
  { apply String.eqb_eq in Hne. subst name.
    unfold delete_img_inner. rewrite Hn. exact Hsame. }
  apply String.eqb_neq in Hne.
  rewrite (delete_img_inner_stages config req env name w Hn Hne).
  destruct (del_select_ok env); cbn [negb]; [|exact Hsame].
  destruct (find (has_url (secure_filename name)) (registry w)) as [row|];
    [|exact Hsame].
  destruct (del_s3_ok env); cbn [negb]; [|exact Hsame].
  assert (Hdel : forall k v,
            delete (aws_s3_bucket_id config, database.filename row) (s3 w) !! k
            = Some v -> s3 w !! k = Some v).
  { intros k v Hk. apply lookup_delete_Some in Hk. tauto. }
  destruct (del_db_ok env); cbn [negb];
    cbn [fst registry s3 disk set_s3 set_registry].
  - split; [reflexivity|]. split; [apply remove_first_length|].
    split; [|exact Hdel]. intros b k Hb. apply lookup_delete_ne. congruence.
  - split; [reflexivity|]. split; [lia|].
    split; [|exact Hdel]. intros b k Hb. apply lookup_delete_ne. congruence.
Qed.

(** Listing and retrieval agree: where shortcodes are unique, the page of
    a shortcode without a dot shows the remote URL that the listing gives
    for its row. *)
Theorem listing_agrees_with_resolve (w : World) (row : database.Image) :
  List.NoDup (map database.url (registry w)) ->
  In row (registry w) ->
  PyStr.contains "." (database.url row) = false ->
  get_image config true (Some (database.url row)) w
  = (w, Returns (Render "display_image.html"
                   (Some (models.TemplateDisplayImage (app_path config)
                            (models.file_url (to_model config row)))))).
Proof.
  intros Hnd Hin Hdot.
  now rewrite (get_image_lookup config _ w Hdot), (find_unique _ _ Hnd Hin).
Qed.

(** The display URL of the listing joins path and shortcode with a
    backslash: it is never a link of the form that an upload returns. *)
Theorem display_url_is_no_public_link (row : database.Image) (c : string) :
  models.display_url (to_model config row)
  <> app_path config ++ "/" ++ c ++ ".png".
Proof.
  unfold to_model. cbn [models.display_url]. intros H.
  apply append_cancel_l in H. discriminate H.
Qed.

End DeletionGuards.

Lemma delete_img_unauthorised_witness :
  let w := Examples.after_upload Examples.cfg "6f1c" 1500000000 Examples.empty_world in
  delete_img Examples.cfg (Samples.intruder_req "abc") Examples.all_ok w
  = (w, Returns Unauthorized).
Proof.
  intros w.
  apply (delete_img_unauthorised (unicode := ascii_tables) Examples.cfg (Samples.intruder_req "abc")
           Examples.all_ok w).
  discriminate.
Defined.

Lemma delete_img_changes_only_found_rows_witness :
  let w := Examples.after_upload Examples.cfg "6f1c" 1500000000 Examples.empty_world in
  Some ("admin", "hunter2") = Some ("admin", "hunter2") /\
  exists name row,
    Some "abc" = Some name /\ name <> EmptyString /\
    find (has_url (secure_filename name)) (registry w) = Some row /\
    true = true /\ true = true.
Proof.
  intros w.
  apply (delete_img_changes_only_found_rows (unicode := ascii_tables) Examples.cfg
           (Examples.delete_req "abc") Examples.all_ok w).
  intros E. apply (f_equal registry) in E. vm_compute in E. discriminate E.
Defined.

Lemma listing_agrees_with_resolve_witness :
  let w := Examples.after_upload Examples.cfg "6f1c" 1500000000 Examples.empty_world in
  get_image Examples.cfg true (Some "abc") w
  = (w, Returns (Render "display_image.html"
                   (Some (models.TemplateDisplayImage "http://img.example"
                            "http://s3.example/pictures/img/6f1c.jpg")))).
Proof.
  intros w.
  apply (listing_agrees_with_resolve Examples.cfg w
           (Examples.cat_row "6f1c" 1500000000)).
  - vm_compute. constructor; [simpl; tauto | constructor].
  - vm_compute. left. reflexivity.
  - reflexivity.
Defined.

Lemma upload_img_urls_witness :
  let w := Examples.after_upload Examples.cfg "6f1c" 1500000000 Examples.empty_world in
  List.NoDup
    (map database.url
       (registry (fst (upload_img Examples.cfg Examples.post_cat
                         (Examples.calm "83aa" 1500000060) w)))).
Proof.
  intros w.
  apply (upload_img_urls (unicode := ascii_tables) Examples.cfg Examples.post_cat
           (Examples.calm "83aa" 1500000060) w).
  vm_compute. constructor; [simpl; tauto | constructor].
Defined.

Lemma delete_img_urls_witness :
  let w := Examples.after_upload Examples.cfg "6f1c" 1500000000 Examples.empty_world in
  List.NoDup
    (map database.url
       (registry (fst (delete_img Examples.cfg (Examples.delete_req "abc")
                         Examples.all_ok w)))).
Proof.
  intros w.
  apply (delete_img_urls (unicode := ascii_tables) Examples.cfg (Examples.delete_req "abc") Examples.all_ok w).
  vm_compute. constructor; [simpl; tauto | constructor].
Defined.
